(** * colab_to_sphinx: the markup walker, the scaffolder and the orchestrator

    A shallow embedding of [colab_to_sphinx.py].

    - Python [str] values are [string]s; a character is a code point below
      256 (the Latin-1 range of [str]), and the character classes of
      [str.strip], [str.lower] and [re]'s [\w], [\s] are the ones Python
      uses on that range.
    - The tree BeautifulSoup hands to the program is the inductive [node].
      The HTML parser itself is a library: [html_to_rst] takes it as the
      function [parse].
    - A function that can raise returns a [result]: [Ok v] or
      [Raise e].  A function that touches the file system is an [io]
      action: it takes the file system and gives a [result] and the file
      system it leaves, also when it raises.
    - The file system is a finite map from path strings to entries, and
      [subprocess.run] is a function on it.  [print] calls write to the
      terminal only and are left out. *)

From Stdlib Require Import ZArith Lia Bool List Ascii String DecimalString.
From stdpp Require Import base option gmap strings fin_maps.
Import ListNotations.

Local Open Scope string_scope.
Local Open Scope list_scope.

(** ** Exceptions *)

(** The exceptions the program can meet. *)
Inductive exn : Type :=
  | IndexError
  | ValueError
  | AttributeError
  | FileExistsError
  | IsADirectoryError
  | FileNotFoundError
  | PermissionError
  | CalledProcessError.

Inductive result (A : Type) : Type :=
  | Ok (v : A)
  | Raise (e : exn).

Arguments Ok {A} v.
Arguments Raise {A} e.

Definition result_bind {A B : Type} (r : result A) (k : A -> result B)
    : result B :=
  match r with
  | Ok v => k v
  | Raise e => Raise e
  end.

Notation "'let*' x ':=' e 'in' k" := (result_bind e (fun x => k))
  (at level 10, x name, e at level 100, k at level 200,
   format "'[v' 'let*'  x  ':='  e  'in'  '/' k ']'").

(** ** Python strings *)

Module Py.

(** The line feed, ['\n']. *)
Definition LF : ascii := "010"%char.

(** The one-character string [c]. *)
Definition chr (c : ascii) : string := String c EmptyString.

(** [str.isspace] on one character: TAB LF VT FF CR, the separators FS GS
    RS US, the space, NEL and the no-break space. *)
Definition isspace (c : ascii) : bool :=
  let n := nat_of_ascii c in
  (((9 <=? n) && (n <=? 13)) || ((28 <=? n) && (n <=? 32))
   || (n =? 133) || (n =? 160))%nat.

(** [s.lstrip()] *)
Fixpoint lstrip (s : string) : string :=
  match s with
  | EmptyString => EmptyString
  | String c s' => if isspace c then lstrip s' else s
  end.

(** [s.rstrip()] *)
Fixpoint rstrip (s : string) : string :=
  match s with
  | EmptyString => EmptyString
  | String c s' =>
      match rstrip s' with
      | EmptyString => if isspace c then EmptyString else chr c
      | r => String c r
      end
  end.

(** [s.strip()] *)
Definition strip (s : string) : string := rstrip (lstrip s).

(** [s.split(sep)] for a one-character separator: never the empty list. *)
Fixpoint split (sep : ascii) (s : string) : list string :=
  match s with
  | EmptyString => [EmptyString]
  | String c s' =>
      if Ascii.eqb c sep then EmptyString :: split sep s'
      else match split sep s' with
           | h :: t => String c h :: t
           | [] => [chr c]
           end
  end.

(** [sep.join(l)] *)
Definition join (sep : string) (l : list string) : string :=
  String.concat sep l.

(** [s * n] *)
Fixpoint mul (s : string) (n : nat) : string :=
  match n with
  | O => EmptyString
  | S n' => s +:+ mul s n'
  end.

(** [s.startswith(p)] *)
Definition startswith (p s : string) : bool := String.prefix p s.

(** [s.endswith(c)] for a one-character [c]. *)
Fixpoint endswith (c : ascii) (s : string) : bool :=
  match s with
  | EmptyString => false
  | String a EmptyString => Ascii.eqb a c
  | String _ s' => endswith c s'
  end.

(** [s[i]] for [i >= 0]. *)
Definition getitem (s : string) (i : nat) : result string :=
  match String.get i s with
  | Some c => Ok (chr c)
  | None => Raise IndexError
  end.

(** [int(s)] for a string of one character, which is all the caller
    passes ([element.name[1]]). *)
Definition int_of_digit (s : string) : result Z :=
  match s with
  | String c EmptyString =>
      let n := nat_of_ascii c in
      if ((48 <=? n) && (n <=? 57))%nat
      then Ok (Z.of_nat n - 48)%Z else Raise ValueError
  | _ => Raise ValueError
  end.

(** [str(n)] for a natural number. *)
Definition str_of_nat (n : nat) : string :=
  NilEmpty.string_of_uint (Nat.to_uint n).

(** [l[i]] on a list, with Python's negative indices. *)
Definition list_getitem {A} (l : list A) (i : Z) : result A :=
  let n := Z.of_nat (List.length l) in
  let j := if (0 <=? i)%Z then i else (i + n)%Z in
  if (0 <=? j)%Z then
    match nth_error l (Z.to_nat j) with
    | Some x => Ok x
    | None => Raise IndexError
    end
  else Raise IndexError.

(** [str.lower] on one character: A-Z, and the Latin-1 capitals
    (U+00C0..U+00DE without the multiplication sign U+00D7). *)
Definition lower_char (c : ascii) : ascii :=
  let n := nat_of_ascii c in
  if (((65 <=? n) && (n <=? 90))
      || ((192 <=? n) && (n <=? 222) && negb (n =? 215)))%nat
  then ascii_of_nat (n + 32) else c.

Fixpoint smap (f : ascii -> ascii) (s : string) : string :=
  match s with
  | EmptyString => EmptyString
  | String c s' => String (f c) (smap f s')
  end.

Fixpoint sfilter (f : ascii -> bool) (s : string) : string :=
  match s with
  | EmptyString => EmptyString
  | String c s' => if f c then String c (sfilter f s') else sfilter f s'
  end.

(** [s.lower()] *)
Definition lower (s : string) : string := smap lower_char s.

(** [re]'s [\w] on a [str] pattern: alphanumeric or the underscore. *)
Definition isword (c : ascii) : bool :=
  let n := nat_of_ascii c in
  (((48 <=? n) && (n <=? 57)) || ((65 <=? n) && (n <=? 90))
   || (n =? 95) || ((97 <=? n) && (n <=? 122))
   || (n =? 170) || (n =? 178) || (n =? 179) || (n =? 181)
   || (n =? 185) || (n =? 186) || ((188 <=? n) && (n <=? 190))
   || ((192 <=? n) && (n <=? 214)) || ((216 <=? n) && (n <=? 246))
   || (248 <=? n))%nat.

(** [s.replace(a, b)] for one-character [a] and [b]. *)
Definition replace_char (a b : ascii) (s : string) : string :=
  smap (fun c => if Ascii.eqb c a then b else c) s.

End Py.

(** ** Loops *)

(** [for x in l: s = body(s, x)], stopping at the first exception. *)
Fixpoint for_each {A S : Type} (body : S -> A -> result S) (l : list A)
    (s : S) : result S :=
  match l with
  | [] => Ok s
  | x :: l' => let* s' := body s x in for_each body l' s'
  end.

(** [enumerate(l)], counting from [i]. *)
Fixpoint enumerate_from {A : Type} (i : nat) (l : list A) : list (nat * A) :=
  match l with
  | [] => []
  | x :: l' => (i, x) :: enumerate_from (S i) l'
  end.

Definition enumerate {A : Type} (l : list A) : list (nat * A) :=
  enumerate_from 0 l.

(** ** The parsed document *)

(** The value of an attribute in [Tag.attrs]: a string, or for the
    multi-valued attributes of HTML (such as [class]) the list of tokens. *)
Inductive attr_value : Type :=
  | AttrStr (s : string)
  | AttrList (tokens : list string).

(** A node of the BeautifulSoup tree: a piece of text, or a tag with its
    attribute dict and its children. *)
#[warnings="-register-all"]
Inductive node : Type :=
  | NavigableString (s : string)
  | Tag (name : string) (attrs : gmap string attr_value)
        (contents : list node).

(** The object [BeautifulSoup(...)] returns is itself a tag, the root. *)
Definition BeautifulSoup (contents : list node) : node :=
  Tag "[document]" ∅ contents.

(** [element.get_text()]: all the text below the element, concatenated. *)
Fixpoint get_text (element : node) : string :=
  match element with
  | NavigableString s => s
  | Tag _ _ contents => String.concat "" (map get_text contents)
  end.

(** [element.children] *)
Definition children (element : node) : list node :=
  match element with
  | NavigableString _ => []
  | Tag _ _ contents => contents
  end.

(** [element.descendants]: every node below the element, in document
    order (a node before its own children). *)
Fixpoint descendants (element : node) : list node :=
  match element with
  | NavigableString _ => []
  | Tag _ _ contents => flat_map (fun c => c :: descendants c) contents
  end.

(** Whether a node is a tag with one of the given names. *)
Definition name_in (names : list string) (element : node) : bool :=
  match element with
  | NavigableString _ => false
  | Tag name _ _ => existsb (String.eqb name) names
  end.

(** [element.find_all(names)] and [element.find_all(names,
    recursive=False)]. *)
Definition find_all (names : list string) (recursive : bool)
    (element : node) : list node :=
  List.filter (name_in names)
         (if recursive then descendants element else children element).

(** ['output' in element.get('class', [])] *)
Definition output_in_class (attrs : gmap string attr_value) : bool :=
  match attrs !! "class" with
  | None => false
  | Some (AttrList tokens) => existsb (String.eqb "output") tokens
  | Some (AttrStr s) =>
      match String.index 0 "output" s with Some _ => true | None => false end
  end.

(** ** The markup walker: [html_to_rst] *)

Definition allowlist : list string :=
  ["h1"; "h2"; "h3"; "h4"; "h5"; "h6"; "p"; "pre"; "code"; "ul"; "ol"; "div"].

(** The double quote, the fourth marker. *)
Definition dquote : string := Py.chr "034"%char.

Definition markers : list string := ["="; "-"; "^"; dquote; "'"; "`"; "+"].

(** [markers[min(level-1, len(markers)-1)]] *)
Definition marker_of_level (level : Z) : result string :=
  Py.list_getitem markers
    (Z.min (level - 1) (Z.of_nat (List.length markers) - 1)).

(** One turn of the inner loop over the [li] children of a list. *)
Definition list_item (name : string) (rst_content : list string)
    (item : nat * node) : list string :=
  let (i, li) := item in
  let li_text := Py.strip (get_text li) in
  if String.eqb li_text "" then rst_content
  else if String.eqb name "ul" then rst_content ++ ["* " +:+ li_text]
  else rst_content ++ [Py.str_of_nat (i + 1) +:+ ". " +:+ li_text].

(** The lines of a code block: each one behind three spaces. *)
Definition indent_lines (text : string) : list string :=
  map (fun line => "   " +:+ line) (Py.split Py.LF text).

(** One turn of the loop of [html_to_rst]: the lines collected so far and
    the next element give the lines collected after it. *)
Definition process (rst_content : list string) (element : node)
    : result (list string) :=
  match element with
  | NavigableString _ => Raise AttributeError
  | Tag name attrs _ =>
      if Py.startswith "h" name then
        let* c := Py.getitem name 1 in
        let* level := Py.int_of_digit c in
        let text := Py.strip (get_text element) in
        if String.eqb text "" then Ok rst_content
        else
          let* marker := marker_of_level level in
          Ok (rst_content
                ++ [""; text; Py.mul marker (String.length text); ""])
      else if String.eqb name "p" then
        let text := Py.strip (get_text element) in
        if String.eqb text "" then Ok rst_content
        else Ok (rst_content ++ [text; ""])
      else if String.eqb name "pre" then
        let code_text := get_text element in
        if String.eqb (Py.strip code_text) "" then Ok rst_content
        else Ok (rst_content ++ [".. code-block:: python"; ""]
                   ++ indent_lines code_text ++ [""])
      else if existsb (String.eqb name) ["ul"; "ol"] then
        Ok (fold_left (list_item name)
              (enumerate (find_all ["li"] false element)) rst_content
              ++ [""])
      else if String.eqb name "div" && output_in_class attrs then
        let output_text := Py.strip (get_text element) in
        if String.eqb output_text "" then Ok rst_content
        else Ok (rst_content ++ [".. code-block:: text"; ""]
                   ++ indent_lines output_text ++ [""])
      else Ok rst_content
  end.

(** The body of [html_to_rst] after parsing: the list [rst_content] when
    the loop ends. *)
Definition rst_lines (soup : node) : result (list string) :=
  for_each process (find_all allowlist true soup) [].

(** [html_to_rst], with [BeautifulSoup(html_content, 'html.parser')] as
    the function [parse]. *)
Definition html_to_rst (parse : string -> node) (html_content : string)
    : result string :=
  let* rst_content := rst_lines (parse html_content) in
  Ok (Py.join (Py.chr Py.LF) rst_content).

(** ** The structure extraction helper: [extract_toc_structure] *)

(** [re.sub(r'[^\w\s-]', '', s)]: only word characters, white space and
    hyphens stay. *)
Definition sub_non_word (s : string) : string :=
  Py.sfilter (fun c => Py.isword c || Py.isspace c || Ascii.eqb c "-") s.

(** The anchor of a heading text. *)
Definition anchor_of (text : string) : string :=
  Py.replace_char " " "-" (sub_non_word (Py.lower text)).

(** One turn of the loop over the headings. *)
Definition toc_entry (toc_structure : list (Z * string * string))
    (heading : node) : result (list (Z * string * string)) :=
  match heading with
  | NavigableString _ => Raise AttributeError
  | Tag name _ _ =>
      let* c := Py.getitem name 1 in
      let* level := Py.int_of_digit c in
      let text := Py.strip (get_text heading) in
      if String.eqb text "" then Ok toc_structure
      else Ok (toc_structure ++ [(level, text, anchor_of text)])
  end.

Definition extract_toc_structure (parse : string -> node)
    (html_content : string) : result (list (Z * string * string)) :=
  for_each toc_entry
    (find_all ["h1"; "h2"; "h3"; "h4"; "h5"; "h6"] true (parse html_content))
    [].

(** ** The file system *)

(** What a path names: a directory, or a file with its content. *)
Inductive entry : Type :=
  | Dir
  | File (content : string).

(** The file system maps the paths that exist to their entries.  Paths
    are compared as strings, and the parent directories of a path are
    not followed. *)
Abbreviation fs := (gmap string entry).

(** An action on the file system: the result and the state it leaves. *)
Definition io (A : Type) : Type := fs -> result A * fs.

Definition io_ret {A : Type} (v : A) : io A := fun s => (Ok v, s).

Definition io_raise {A : Type} (e : exn) : io A := fun s => (Raise e, s).

Definition io_bind {A B : Type} (m : io A) (k : A -> io B) : io B :=
  fun s =>
    match m s with
    | (Ok v, s') => k v s'
    | (Raise e, s') => (Raise e, s')
    end.

Notation "'let!' x ':=' e 'in' k" := (io_bind e (fun x => k))
  (at level 10, x name, e at level 100, k at level 200,
   format "'[v' 'let!'  x  ':='  e  'in'  '/' k ']'").

(** A pure computation inside an action. *)
Definition io_lift {A : Type} (r : result A) : io A := fun s => (r, s).

(** [try: body finally: cleanup]: the cleanup runs whatever the body
    did, and an exception of the cleanup replaces the body's outcome. *)
Definition try_finally {A : Type} (body : io A) (cleanup : io unit)
    : io A :=
  fun s =>
    let (r, s1) := body s in
    match cleanup s1 with
    | (Ok _, s2) => (r, s2)
    | (Raise e, s2) => (Raise e, s2)
    end.

Module os.

(** [os.path.join(a, b)] on POSIX paths. *)
Definition path_join (a b : string) : string :=
  if Py.startswith "/" b then b
  else if String.eqb a "" || Py.endswith "/" a then a +:+ b
  else a +:+ "/" +:+ b.

(** [os.makedirs(path, exist_ok=...)] *)
Definition makedirs (path : string) (exist_ok : bool) : io unit :=
  fun s =>
    match s !! path with
    | None => (Ok tt, <[path := Dir]> s)
    | Some Dir => if exist_ok then (Ok tt, s) else (Raise FileExistsError, s)
    | Some (File _) => (Raise FileExistsError, s)
    end.

(** [with open(path, 'w') as f: f.write(content)] *)
Definition write_file (path content : string) : io unit :=
  fun s =>
    match s !! path with
    | Some Dir => (Raise IsADirectoryError, s)
    | _ => (Ok tt, <[path := File content]> s)
    end.

(** [os.unlink(path)] *)
Definition unlink (path : string) : io unit :=
  fun s =>
    match s !! path with
    | Some (File _) => (Ok tt, delete path s)
    | Some Dir => (Raise IsADirectoryError, s)
    | None => (Raise FileNotFoundError, s)
    end.

End os.

(** ** The scaffolder: [create_sphinx_project] *)

Definition unlines (lines : list string) : string :=
  Py.join (Py.chr Py.LF) lines.

(** The f-string of [conf.py], line by line. *)
Definition conf_content (project_name : string) : string :=
  unlines
    [ "";
      "# Configuration file for the Sphinx documentation builder.";
      "";
      "project = '" +:+ project_name +:+ "'";
      "copyright = '2025'";
      "author = 'Author'";
      "release = '1.0'";
      "";
      "# Add any Sphinx extension module names here";
      "extensions = [";
      "    'sphinx.ext.autodoc',";
      "    'sphinx.ext.viewcode',";
      "    'sphinx.ext.napoleon',";
      "    'sphinx.ext.githubpages'  # For GitHub Pages deployment";
      "]";
      "";
      "templates_path = ['_templates']";
      "exclude_patterns = ['_build', 'Thumbs.db', '.DS_Store']";
      "";
      "# HTML output options";
      "html_theme = 'sphinx_rtd_theme'";
      "html_static_path = ['_static']";
      "";
      "# Theme options for better sidebar TOC";
      "html_theme_options = {";
      "    'navigation_depth': 4,";
      "    'collapse_navigation': False,";
      "    'sticky_navigation': True,";
      "    'includehidden': True,";
      "    'titles_only': False,";
      "    'display_version': True,";
      "    'logo_only': False,";
      "}";
      "";
      "# Enable section numbering";
      "html_show_sourcelink = False";
      "html_show_sphinx = False";
      "" ].

(** The f-string of [index.rst], line by line. *)
Definition index_content (project_name : string) : string :=
  unlines
    [ "";
      project_name;
      Py.mul "=" (String.length project_name);
      "";
      "Welcome to the documentation for " +:+ project_name +:+ ".";
      "";
      ".. toctree::";
      "   :maxdepth: 3";
      "   :caption: Contents:";
      "   :numbered:";
      "";
      "   notebook_content";
      "";
      "Indices and tables";
      "==================";
      "";
      "* :ref:`genindex`";
      "* :ref:`modindex`";
      "* :ref:`search`";
      "" ].

Definition create_sphinx_project (project_name project_path : string)
    : io unit :=
  let! _ := os.makedirs project_path true in
  let! _ := os.write_file (os.path_join project_path "conf.py")
              (conf_content project_name) in
  let! _ := os.write_file (os.path_join project_path "index.rst")
              (index_content project_name) in
  let! _ := os.makedirs (os.path_join project_path "_static") true in
  os.makedirs (os.path_join project_path "_templates") true.

(** ** The orchestrator: [convert_with_pandoc], [convert_colab_to_sphinx] *)

(** The arguments [convert_with_pandoc] passes to [subprocess.run]. *)
Definition pandoc_args (temp_html_path output_rst_path : string)
    : list string :=
  ["pandoc"; temp_html_path; "-f"; "html"; "-t"; "rst";
   "-o"; output_rst_path; "--wrap=none"].

(** The arguments [build_documentation] passes to [subprocess.run];
    [os.path.join] of three parts joins from the left. *)
Definition build_args (project_path : string) : list string :=
  ["sphinx-build"; "-b"; "html"; project_path;
   os.path_join (os.path_join project_path "_build") "html"].

(** The two strings [main] converts. *)
Definition sample_notebook_html : string :=
  unlines
    [ "";
      "    <h1>My Data Science Notebook</h1>";
      "    <p>This is an example notebook converted from Colab.</p>";
      "    ";
      "    <h2>Data Loading</h2>";
      "    <pre>";
      "import pandas as pd";
      "import numpy as np";
      "";
      "df = pd.read_csv('data.csv')";
      "print(df.head())";
      "    </pre>";
      "    ";
      "    <h2>Data Analysis</h2>";
      "    <p>Here we perform some basic analysis.</p>";
      "    ";
      "    <h3>Summary Statistics</h3>";
      "    <pre>";
      "print(df.describe())";
      "    </pre>";
      "    " ].

Definition sample_toc_html : string :=
  unlines
    [ "";
      "    <ul>";
      "        <li><a href=" +:+ dquote +:+ "#data-loading" +:+ dquote
        +:+ ">Data Loading</a></li>";
      "        <li><a href=" +:+ dquote +:+ "#data-analysis" +:+ dquote
        +:+ ">Data Analysis</a>";
      "            <ul>";
      "                <li><a href=" +:+ dquote +:+ "#summary-statistics"
        +:+ dquote +:+ ">Summary Statistics</a></li>";
      "            </ul>";
      "        </li>";
      "    </ul>";
      "    " ].

Section Orchestrator.

(** [BeautifulSoup(html, 'html.parser')] *)
Variable parse : string -> node.

(** The name [tempfile.NamedTemporaryFile] picks. *)
Variable temp_html_path : string.

(** [subprocess.run(args, capture_output=True, text=True)]: the exit
    status of the child, or the exception of starting it; the child may
    change the file system either way. *)
Variable subprocess_run : list string -> io Z.

(** [subprocess.run(args, check=True, ...)] *)
Definition run_checked (args : list string) : io unit :=
  let! returncode := subprocess_run args in
  if (returncode =? 0)%Z then io_ret tt else io_raise CalledProcessError.

(** The [try] block of [convert_with_pandoc] with its two [except]
    clauses. *)
Definition try_pandoc (output_rst_path : string) : io bool :=
  fun s =>
    match run_checked (pandoc_args temp_html_path output_rst_path) s with
    | (Ok _, s') => (Ok true, s')
    | (Raise CalledProcessError, s') => (Ok false, s')
    | (Raise FileNotFoundError, s') => (Ok false, s')
    | (Raise e, s') => (Raise e, s')
    end.

Definition convert_with_pandoc (html_content output_rst_path : string)
    : io bool :=
  let! _ := os.write_file temp_html_path html_content in
  try_finally (try_pandoc output_rst_path) (os.unlink temp_html_path).

(** The f-string around the walker's output. *)
Definition full_rst_content (notebook_rst : string) : string :=
  unlines [""; "Notebook Content"; "================"; ""; notebook_rst; ""].

Definition convert_colab_to_sphinx
    (notebook_html toc_html output_dir project_name : string) : io string :=
  let! _ := create_sphinx_project project_name output_dir in
  let rst_file_path := os.path_join output_dir "notebook_content.rst" in
  let! converted := convert_with_pandoc notebook_html rst_file_path in
  let! _ :=
    if negb converted then
      let! notebook_rst := io_lift (html_to_rst parse notebook_html) in
      os.write_file rst_file_path (full_rst_content notebook_rst)
    else io_ret tt in
  io_ret output_dir.

(** ** The other entry points: [check_dependencies],
    [build_documentation], [main] *)

(** Whether [import] finds the module of that name. *)
Variable importable : string -> bool.

(** The two imports are tried first; pandoc is only looked for when both
    are there, and its absence or failure still gives [True]. *)
Definition check_dependencies : io bool :=
  if importable "sphinx" && importable "bs4" then
    fun s =>
      match run_checked ["pandoc"; "--version"] s with
      | (Ok _, s') => (Ok true, s')
      | (Raise CalledProcessError, s') => (Ok true, s')
      | (Raise FileNotFoundError, s') => (Ok true, s')
      | (Raise e, s') => (Raise e, s')
      end
  else io_ret false.

(** The [try] of [build_documentation] has one [except] clause. *)
Definition build_documentation (project_path : string) : io bool :=
  fun s =>
    match run_checked (build_args project_path) s with
    | (Ok _, s') => (Ok true, s')
    | (Raise CalledProcessError, s') => (Ok false, s')
    | (Raise e, s') => (Raise e, s')
    end.

Definition main : io unit :=
  let! ready := check_dependencies in
  if negb ready then io_ret tt
  else
    let! project_path :=
      convert_colab_to_sphinx sample_notebook_html sample_toc_html
        "./sphinx_notebook" "My Data Science Notebook" in
    let! built := build_documentation project_path in
    io_ret tt.

End Orchestrator.

(** ** Definitions used to state the properties *)

(** A string that is empty or of white space only. *)
Fixpoint all_space (s : string) : bool :=
  match s with
  | EmptyString => true
  | String c s' => Py.isspace c && all_space s'
  end.

(** The lines an ordered list gives, said with the positions of its
    items: item number [i] (from [first]) with text [t] gives [i. t], and
    an item without text gives nothing. *)
Definition numbered_lines (first : nat) (items : list node) : list string :=
  map (fun p : nat * node =>
         Py.str_of_nat (fst p) +:+ ". " +:+ Py.strip (get_text (snd p)))
      (List.filter
         (fun p : nat * node =>
            negb (String.eqb (Py.strip (get_text (snd p))) ""))
         (combine (seq first (List.length items)) items)).

(** Whether a string holds the character [c]. *)
Fixpoint has_char (c : ascii) (s : string) : bool :=
  match s with
  | EmptyString => false
  | String a s' => Ascii.eqb a c || has_char c s'
  end.

(** What [os.path.join] puts between a directory and a relative name. *)
Definition separator (a : string) : string :=
  if String.eqb a "" || Py.endswith "/" a then "" else "/".

(** The anchor as the specification words it: after the lowering and the
    removal, every run of white space becomes one hyphen.  [in_run] says
    that the character before was white space. *)
Fixpoint hyphenate_runs (in_run : bool) (s : string) : string :=
  match s with
  | EmptyString => EmptyString
  | String c s' =>
      if Py.isspace c then
        if in_run then hyphenate_runs true s'
        else String "-" (hyphenate_runs true s')
      else String c (hyphenate_runs false s')
  end.

Definition anchor_by_runs (text : string) : string :=
  hyphenate_runs false (sub_non_word (Py.lower text)).

(** A string whose white space is single spaces only: every white space
    character is the space and the one before it is not white space. *)
Fixpoint single_spaces (after_space : bool) (s : string) : bool :=
  match s with
  | EmptyString => true
  | String c s' =>
      if Py.isspace c
      then Ascii.eqb c " " && negb after_space && single_spaces true s'
      else single_spaces false s'
  end.

(** A [subprocess.run] that cannot start the program although it is
    there: the file has no execute permission. *)
Definition run_denied (args : list string) : io Z :=
  io_raise PermissionError.

(** A [subprocess.run] on a machine without the program. *)
Definition run_absent (args : list string) : io Z :=
  io_raise FileNotFoundError.

(** A [subprocess.run] whose child writes a part of the output file and
    exits with status 64. *)
Definition run_failing (args : list string) : io Z :=
  fun s =>
    match nth_error args 7 with
    | Some output => (Ok 64%Z, <[output := File "Notebook"]> s)
    | None => (Ok 64%Z, s)
    end.

(** A parser for the examples: whatever the string, the tree of
    [<p>hi</p>]. *)
Definition parse_hi (html : string) : node :=
  BeautifulSoup [Tag "p" ∅ [NavigableString "hi"]].



Definition is_file (e : option entry) : bool :=
  match e with Some (File _) => true | _ => false end.

Definition is_dir (e : option entry) : bool :=
  match e with Some Dir => true | _ => false end.

(** The trimmed text of an element. *)
Definition text_of (element : node) : string := Py.strip (get_text element).

(** What the converter's outcome makes of [convert_with_pandoc], as its
    [try] reads: status 0 is [True], the two caught failures are [False],
    anything else goes on. *)
Definition pandoc_verdict (r : result Z) : result bool :=
  match r with
  | Ok code => if (code =? 0)%Z then Ok true else Ok false
  | Raise FileNotFoundError => Ok false
  | Raise CalledProcessError => Ok false
  | Raise e => Raise e
  end.

(** * Properties *)

(** ** Strings *)

Lemma length_append (a b : string) :
  String.length (a +:+ b) = String.length a + String.length b.
Proof. induction a as [|c a IH]; simpl; [reflexivity | now rewrite IH]. Qed.

Lemma length_mul (s : string) (n : nat) :
  String.length (Py.mul s n) = n * String.length s.
Proof.
  induction n as [|n IH]; simpl; [reflexivity |].
  rewrite length_append, IH. lia.
Qed.

Lemma eqb_empty (s : string) : String.eqb s "" = true <-> s = "".
Proof. apply String.eqb_eq. Qed.

Lemma eqb_nonempty (s : string) : s <> "" -> String.eqb s "" = false.
Proof. intros H. now apply String.eqb_neq. Qed.

Lemma lstrip_all_space (s : string) : all_space s = true -> Py.lstrip s = "".
Proof.
  induction s as [|c s IH]; simpl; [reflexivity |].
  intros [Hc Hs]%andb_prop. rewrite Hc. auto.
Qed.

Lemma strip_all_space (s : string) : all_space s = true -> Py.strip s = "".
Proof. intros H. unfold Py.strip. now rewrite lstrip_all_space. Qed.

Lemma rstrip_empty (s : string) : Py.rstrip s = "" -> all_space s = true.
Proof.
  induction s as [|c s IH]; simpl; [reflexivity |].
  destruct (Py.rstrip s) eqn:E; [|discriminate].
  destruct (Py.isspace c); [auto | discriminate].
Qed.

Lemma lstrip_all_space_inv (s : string) :
  all_space (Py.lstrip s) = true -> all_space s = true.
Proof.
  induction s as [|c s IH]; simpl; [reflexivity |].
  destruct (Py.isspace c) eqn:E; simpl; [auto |].
  rewrite E. discriminate.
Qed.

Lemma strip_empty_iff (s : string) : Py.strip s = "" <-> all_space s = true.
Proof.
  split; [| apply strip_all_space].
  intros H. now apply lstrip_all_space_inv, rstrip_empty.
Qed.

(** ** The loop of the walker *)

Lemma for_each_app {A S : Type} (body : S -> A -> result S) l1 l2 s :
  for_each body (l1 ++ l2) s
  = let* s' := for_each body l1 s in for_each body l2 s'.
Proof.
  revert s. induction l1 as [|x l1 IH]; intros s; simpl; [reflexivity |].
  destruct (body s x); simpl; [apply IH | reflexivity].
Qed.

Lemma fold_list_item_app name items rst :
  fold_left (list_item name) items rst
  = rst ++ fold_left (list_item name) items [].
Proof.
  revert rst. induction items as [|[i li] items IH]; intros rst;
    cbn [fold_left].
  - now rewrite app_nil_r.
  - rewrite (IH (list_item name rst (i, li))).
    rewrite (IH (list_item name [] (i, li))).
    rewrite app_assoc. f_equal.
    unfold list_item.
    destruct (String.eqb _ ""); [now rewrite app_nil_r |].
    destruct (String.eqb name "ul"); reflexivity.
Qed.

Lemma fold_list_item_ol items i rst :
  fold_left (list_item "ol") (enumerate_from i items) rst
  = rst ++ numbered_lines (S i) items.
Proof.
  revert i rst. induction items as [|li items IH]; intros i rst.
  - simpl. now rewrite app_nil_r.
  - cbn [enumerate_from fold_left]. rewrite IH.
    unfold numbered_lines. cbn [List.length seq combine List.filter fst snd].
    unfold list_item at 1. replace (i + 1) with (S i) by lia.
    destruct (String.eqb (Py.strip (get_text li)) ""); cbn [negb].
    + reflexivity.
    + cbn [String.eqb Ascii.eqb Bool.eqb map fst snd].
      now rewrite <- app_assoc.
Qed.

(** ** Lines of a text *)

Lemma split_nonempty sep s : Py.split sep s <> [].
Proof.
  destruct s as [|c s]; simpl; [discriminate |].
  destruct (Ascii.eqb c sep); [discriminate |].
  destruct (Py.split sep s); discriminate.
Qed.

Lemma join_split sep s : Py.join (Py.chr sep) (Py.split sep s) = s.
Proof.
  unfold Py.join. induction s as [|c s IH]; [reflexivity |].
  cbn [Py.split].
  destruct (Py.split sep s) as [|h t] eqn:E;
    [now apply split_nonempty in E |].
  destruct (Ascii.eqb_spec c sep) as [->|Hne].
  - change (String.concat (Py.chr sep) ("" :: h :: t))
      with (String sep (String.concat (Py.chr sep) (h :: t))).
    now rewrite IH.
  - destruct t as [|h' t].
    + simpl in *. now rewrite IH.
    + change (String.concat (Py.chr sep) (String c h :: h' :: t))
        with (String c (String.concat (Py.chr sep) (h :: h' :: t))).
      now rewrite IH.
Qed.

Lemma split_no_sep sep s :
  Forall (fun line => has_char sep line = false) (Py.split sep s).
Proof.
  induction s as [|c s IH]; cbn [Py.split].
  - now constructor.
  - destruct (Ascii.eqb c sep) eqn:E.
    + now constructor.
    + destruct (Py.split sep s) as [|h t] eqn:Es;
        [now apply split_nonempty in Es |].
      inversion IH; subst.
      constructor; [| assumption].
      simpl. now rewrite E.
Qed.

(** Unfolds the loop body at a tag whose name is known and takes the
    branch of that name. *)
Ltac branch_on_name :=
  unfold process;
  repeat match goal with
         | |- context [Py.startswith ?p ?n] =>
             let b := eval vm_compute in (Py.startswith p n) in
             change (Py.startswith p n) with b
         end;
  cbn [String.eqb Ascii.eqb Bool.eqb existsb orb andb].

(** ** Headings *)

Lemma length_marker_line marker text :
  String.length marker = 1 ->
  String.length (Py.mul marker (String.length text)) = String.length text.
Proof. intros H. rewrite length_mul, H. lia. Qed.

Lemma process_heading name attrs contents rst_content c level :
  let element := Tag name attrs contents in
  let text := Py.strip (get_text element) in
  Py.startswith "h" name = true ->
  Py.getitem name 1 = Ok c ->
  Py.int_of_digit c = Ok level ->
  process rst_content element
  = if String.eqb text "" then Ok rst_content
    else let* marker := marker_of_level level in
         Ok (rst_content
               ++ [""; text; Py.mul marker (String.length text); ""]).
Proof.
  intros element text Hh Hc Hl. unfold element, process.
  rewrite Hh, Hc. cbn [result_bind]. rewrite Hl. reflexivity.
Qed.

Lemma marker_clamped (level : Z) :
  (7 <= level)%Z -> marker_of_level level = Ok "+".
Proof.
  intros H. unfold marker_of_level.
  replace (Z.min (level - 1) (Z.of_nat (List.length markers) - 1)) with 6%Z
    by (cbn [List.length markers]; lia).
  reflexivity.
Qed.

(** C1.  A heading [h1]..[h6] whose trimmed text is not empty adds four
    lines: an empty one, the text, an underline as long as the text made
    of the marker at index [level - 1] of the table, and an empty one.
    From level 7 on the marker is the last one of the table. *)
Theorem heading_emission (level : nat) (high : Z) attrs contents rst_content :
  let element := Tag ("h" +:+ Py.str_of_nat level) attrs contents in
  let text := Py.strip (get_text element) in
  1 <= level <= 6 ->
  text <> "" ->
  (7 <= high)%Z ->
  (exists marker,
      nth_error markers (level - 1) = Some marker
      /\ process rst_content element
         = Ok (rst_content
                 ++ [""; text; Py.mul marker (String.length text); ""])
      /\ String.length (Py.mul marker (String.length text))
         = String.length text)
  /\ marker_of_level high = Ok "+"
  /\ nth_error markers (List.length markers - 1) = Some "+".
Proof.
  intros element text Hlevel Htext Hhigh.
  split; [| split; [now apply marker_clamped | reflexivity]].
  assert (Hcases : level = 1 \/ level = 2 \/ level = 3 \/ level = 4
                   \/ level = 5 \/ level = 6) by lia.
  subst element.
  destruct Hcases as [-> | [-> | [-> | [-> | [-> | ->]]]]];
    eexists; (split; [reflexivity |]);
    (split; [| now apply length_marker_line]);
    (erewrite process_heading; [| reflexivity ..]);
    fold text; rewrite (eqb_nonempty _ Htext); reflexivity.
Qed.

Lemma heading_emission_witness :
  process ["intro"] (Tag "h2" ∅ [NavigableString " Data Loading "])
  = Ok ["intro"; ""; "Data Loading"; "------------"; ""].
Proof.
  destruct (heading_emission 2 9 ∅ [NavigableString " Data Loading "]
              ["intro"]) as [[marker [Hm [Hp _]]] _];
    [lia | discriminate | lia |].
  injection Hm as <-. exact Hp.
Defined.

(** ** Ordered lists *)

(** C2.  An ordered list adds, for each direct [li] child with text, the
    line made of its 1-based position among all the direct [li] children,
    a period, a space and the text, and then one empty line; children
    without text keep their position and add nothing.  So the items
    A, (empty), B give [1. A], [3. B] and an empty line. *)
Theorem ordered_list_numbering attrs contents rst_content :
  let element := Tag "ol" attrs contents in
  process rst_content element
  = Ok (rst_content
          ++ numbered_lines 1 (find_all ["li"] false element) ++ [""])
  /\ rst_lines
       (BeautifulSoup
          [Tag "ol" ∅ [Tag "li" ∅ [NavigableString "A"];
                       Tag "li" ∅ [];
                       Tag "li" ∅ [NavigableString "B"]]])
     = Ok ["1. A"; "3. B"; ""].
Proof.
  intros element. split; [| reflexivity].
  unfold element. branch_on_name.
  unfold enumerate. rewrite fold_list_item_ol.
  now rewrite <- app_assoc.
Qed.

(** ** Preformatted blocks *)

(** C3.  A [pre] element whose trimmed text is not empty adds the line
    [.. code-block:: python], an empty line, every line of the raw text
    behind three spaces, and an empty line.  The lines are those of the
    raw text: joined with line feeds they give it back, and none holds a
    line feed. *)
Theorem pre_emission attrs contents rst_content :
  let element := Tag "pre" attrs contents in
  let code_text := get_text element in
  let lines := Py.split Py.LF code_text in
  Py.strip code_text <> "" ->
  process rst_content element
  = Ok (rst_content
          ++ [".. code-block:: python"; ""]
          ++ map (fun line => "   " +:+ line) lines
          ++ [""])
  /\ Py.join (Py.chr Py.LF) lines = code_text
  /\ Forall (fun line => has_char Py.LF line = false) lines.
Proof.
  intros element code_text lines Htext.
  split; [| split; [apply join_split | apply split_no_sep]].
  unfold element. branch_on_name.
  fold element. fold code_text. now rewrite (eqb_nonempty _ Htext).
Qed.

Lemma pre_emission_witness :
  process [] (Tag "pre" ∅ [NavigableString "x = 1
y = 2"])
  = Ok [".. code-block:: python"; ""; "   x = 1"; "   y = 2"; ""].
Proof.
  apply (pre_emission ∅ [NavigableString "x = 1
y = 2"] []). discriminate.
Defined.

(** ** Elements without text *)

(** C4.  A heading, a paragraph, a preformatted block or a [div] of class
    [output] whose text is empty or white space only adds no line. *)
Theorem empty_element_emits_nothing name attrs contents rst_content :
  let element := Tag name attrs contents in
  In name ["h1"; "h2"; "h3"; "h4"; "h5"; "h6"; "p"; "pre"]
  \/ (name = "div" /\ output_in_class attrs = true) ->
  all_space (get_text element) = true ->
  process rst_content element = Ok rst_content.
Proof.
  intros element Hname Hspace.
  apply strip_all_space in Hspace.
  assert (Hempty : String.eqb (Py.strip (get_text element)) "" = true)
    by now apply eqb_empty.
  destruct Hname as [Hin | [-> Hout]].
  - cbn [In] in Hin.
    destruct Hin as [<- | [<- | [<- | [<- | [<- | [<- | [<- | [<- | []]]]]]]]];
      try (subst element; erewrite process_heading by reflexivity;
           now rewrite Hempty);
      unfold element; branch_on_name;
      fold element; now rewrite Hempty.
  - unfold element. branch_on_name.
    rewrite Hout. fold element. now rewrite Hempty.
Qed.

Lemma empty_element_emits_nothing_witness :
  process ["kept"]
    (Tag "div" {["class" := AttrList ["cell"; "output"]]}
       [NavigableString " "; Tag "span" ∅ [NavigableString "
"]])
  = Ok ["kept"].
Proof.
  apply empty_element_emits_nothing; [right; split |]; reflexivity.
Defined.

(** ** Paths *)

Lemma append_inv_head (a x y : string) : a +:+ x = a +:+ y -> x = y.
Proof.
  induction a as [|c a IH]; simpl; [auto |].
  intros H. injection H as H. auto.
Qed.

Lemma append_empty_r (a : string) : a +:+ "" = a.
Proof.
  induction a as [|c a IH]; [reflexivity |].
  change (String c (a +:+ "") = String c a). now rewrite IH.
Qed.

Lemma path_join_relative a b :
  Py.startswith "/" b = false ->
  os.path_join a b = a +:+ (separator a +:+ b).
Proof.
  intros H. unfold os.path_join, separator. rewrite H.
  destruct (String.eqb a "" || Py.endswith "/" a); reflexivity.
Qed.

Lemma path_join_ne_dir a b :
  Py.startswith "/" b = false -> b <> "" -> os.path_join a b <> a.
Proof.
  intros Hb Hne. rewrite (path_join_relative _ _ Hb). intros H.
  assert (H' : a +:+ (separator a +:+ b) = a +:+ "")
    by (now rewrite append_empty_r).
  apply append_inv_head in H'. unfold separator in H'.
  destruct (String.eqb a "" || Py.endswith "/" a).
  - change (b = "") in H'. congruence.
  - change (String "/" b = "") in H'. discriminate.
Qed.

Lemma path_join_inj a b c :
  Py.startswith "/" b = false -> Py.startswith "/" c = false ->
  os.path_join a b = os.path_join a c -> b = c.
Proof.
  intros Hb Hc. rewrite (path_join_relative _ _ Hb).
  rewrite (path_join_relative _ _ Hc). intros H%append_inv_head.
  now apply append_inv_head in H.
Qed.

(** Two paths of the scaffold are different. *)
Ltac paths_differ :=
  solve [ apply path_join_ne_dir; [reflexivity | discriminate]
        | apply not_eq_sym, path_join_ne_dir; [reflexivity | discriminate]
        | let H := fresh in
          intros H; apply path_join_inj in H;
            [discriminate H | reflexivity | reflexivity] ].

(** ** File system actions *)

Lemma io_bind_ok {A B : Type} (m : io A) (k : A -> io B) s v s' :
  io_bind m k s = (Ok v, s') ->
  exists u s0, m s = (Ok u, s0) /\ k u s0 = (Ok v, s').
Proof.
  unfold io_bind. destruct (m s) as [[u | e] s0]; [eauto | discriminate].
Qed.

Lemma makedirs_ok path (s s' : fs) :
  os.makedirs path true s = (Ok tt, s') ->
  s' !! path = Some Dir /\ forall q, q <> path -> s' !! q = s !! q.
Proof.
  unfold os.makedirs. destruct (s !! path) as [[|content]|] eqn:E;
    intros H; inversion H; subst.
  - auto.
  - split; [apply lookup_insert_eq |].
    intros q Hq. now apply lookup_insert_ne.
Qed.

Lemma makedirs_again path (s : fs) :
  s !! path = Some Dir -> os.makedirs path true s = (Ok tt, s).
Proof. intros H. unfold os.makedirs. now rewrite H. Qed.

Lemma write_file_ok path content (s s' : fs) :
  os.write_file path content s = (Ok tt, s') ->
  s' !! path = Some (File content)
  /\ forall q, q <> path -> s' !! q = s !! q.
Proof.
  unfold os.write_file.
  destruct (s !! path) as [[|old]|] eqn:E; intros H; inversion H; subst;
    (split; [apply lookup_insert_eq |]);
    intros q Hq; now apply lookup_insert_ne.
Qed.

Lemma write_file_again path content (s : fs) :
  s !! path = Some (File content) ->
  os.write_file path content s = (Ok tt, s).
Proof.
  intros H. unfold os.write_file. rewrite H. now rewrite insert_id.
Qed.

Lemma write_file_not_dir path content (s : fs) :
  s !! path <> Some Dir ->
  os.write_file path content s = (Ok tt, <[path := File content]> s).
Proof.
  intros H. unfold os.write_file.
  destruct (s !! path) as [[|old]|]; congruence.
Qed.

(** ** The scaffolder *)

(** What a run of the scaffolder that ends well leaves behind. *)
Lemma create_sphinx_project_leaves project_name project_path (s s1 : fs) :
  create_sphinx_project project_name project_path s = (Ok tt, s1) ->
  s1 !! project_path = Some Dir
  /\ s1 !! os.path_join project_path "conf.py"
     = Some (File (conf_content project_name))
  /\ s1 !! os.path_join project_path "index.rst"
     = Some (File (index_content project_name))
  /\ s1 !! os.path_join project_path "_static" = Some Dir
  /\ s1 !! os.path_join project_path "_templates" = Some Dir.
Proof.
  unfold create_sphinx_project. intros H.
  apply io_bind_ok in H as ([] & sa & [Ha Fa]%makedirs_ok & H).
  apply io_bind_ok in H as ([] & sb & [Hb Fb]%write_file_ok & H).
  apply io_bind_ok in H as ([] & sc & [Hc Fc]%write_file_ok & H).
  apply io_bind_ok in H as ([] & sd & [Hd Fd]%makedirs_ok & H).
  apply makedirs_ok in H as [He Fe].
  repeat split.
  - rewrite Fe, Fd, Fc, Fb by paths_differ. exact Ha.
  - rewrite Fe, Fd, Fc by paths_differ. exact Hb.
  - rewrite Fe, Fd by paths_differ. exact Hc.
  - rewrite Fe by paths_differ. exact Hd.
  - exact He.
Qed.

(** C5.  When a run of the scaffolder ends well, a second run with the
    same project name and path ends well too and changes nothing; the
    configuration and index files hold the two templates filled with the
    project name, whatever the path and whatever was there before. *)
Theorem scaffold_idempotent project_name project_path (s s1 : fs) :
  create_sphinx_project project_name project_path s = (Ok tt, s1) ->
  create_sphinx_project project_name project_path s1 = (Ok tt, s1)
  /\ s1 !! os.path_join project_path "conf.py"
     = Some (File (conf_content project_name))
  /\ s1 !! os.path_join project_path "index.rst"
     = Some (File (index_content project_name)).
Proof.
  intros H.
  apply create_sphinx_project_leaves in H as (Hd & Hc & Hi & Hs & Ht).
  split; [| now split].
  unfold create_sphinx_project, io_bind.
  rewrite (makedirs_again _ _ Hd), (write_file_again _ _ _ Hc).
  rewrite (write_file_again _ _ _ Hi), (makedirs_again _ _ Hs).
  now apply makedirs_again.
Qed.

Lemma scaffold_idempotent_witness :
  exists s1 : fs,
    create_sphinx_project "Demo" "docs" ∅ = (Ok tt, s1)
    /\ create_sphinx_project "Demo" "docs" s1 = (Ok tt, s1)
    /\ s1 !! "docs/conf.py" = Some (File (conf_content "Demo"))
    /\ s1 !! "docs/index.rst" = Some (File (index_content "Demo")).
Proof.
  eexists. split; [reflexivity |].
  apply (scaffold_idempotent "Demo" "docs" ∅). reflexivity.
Defined.

(** ** The walk as a whole *)

(** The lines an element adds do not depend on the lines before it. *)
Lemma process_app rst_content element :
  process rst_content element
  = let* lines := process [] element in Ok (rst_content ++ lines).
Proof.
  destruct element as [s | name attrs contents]; [reflexivity |].
  unfold process. destruct (Py.startswith "h" name).
  - destruct (Py.getitem name 1) as [c |]; cbn [result_bind];
      [| reflexivity].
    destruct (Py.int_of_digit c) as [level |]; cbn [result_bind];
      [| reflexivity].
    destruct (String.eqb _ ""); cbn [result_bind];
      [now rewrite app_nil_r |].
    destruct (marker_of_level level); reflexivity.
  - destruct (String.eqb name "p").
    { destruct (String.eqb _ ""); cbn [result_bind];
        [now rewrite app_nil_r | reflexivity]. }
    destruct (String.eqb name "pre").
    { destruct (String.eqb _ ""); cbn [result_bind];
        [now rewrite app_nil_r | reflexivity]. }
    destruct (existsb (String.eqb name) ["ul"; "ol"]).
    { cbn [result_bind]. rewrite fold_list_item_app.
      now rewrite <- app_assoc. }
    destruct (String.eqb name "div" && output_in_class attrs).
    { destruct (String.eqb _ ""); cbn [result_bind];
        [now rewrite app_nil_r | reflexivity]. }
    cbn [result_bind]. now rewrite app_nil_r.
Qed.

Lemma name_in_cases names element :
  name_in names element = true ->
  exists name attrs contents,
    element = Tag name attrs contents /\ In name names.
Proof.
  destruct element as [s | name attrs contents]; [discriminate |].
  cbn [name_in]. intros H. exists name, attrs, contents.
  split; [reflexivity |].
  apply existsb_exists in H as (x & Hin & Heq).
  apply String.eqb_eq in Heq. now subst.
Qed.

(** On an element of the allowlist the loop body does not raise. *)
Lemma process_allowlisted element :
  name_in allowlist element = true ->
  exists lines, process [] element = Ok lines.
Proof.
  intros (name & attrs & contents & -> & Hin)%name_in_cases.
  unfold allowlist in Hin. cbn [In] in Hin.
  repeat (destruct Hin as [<- | Hin]); try contradiction;
    try (erewrite process_heading by reflexivity;
         destruct (String.eqb _ ""); eexists; reflexivity);
    branch_on_name;
    repeat match goal with
           | |- context [if ?b then _ else _] => destruct b
           end;
    eexists; reflexivity.
Qed.

Lemma for_each_process elements rst_content :
  Forall (fun e => name_in allowlist e = true) elements ->
  exists emissions,
    Forall2 (fun e lines => process [] e = Ok lines) elements emissions
    /\ for_each process elements rst_content
       = Ok (rst_content ++ concat emissions).
Proof.
  intros H. revert rst_content.
  induction H as [| e elements He _ IH]; intros rst_content.
  - exists []. split; [constructor | simpl; now rewrite app_nil_r].
  - destruct (process_allowlisted e He) as [lines Hlines].
    destruct (IH (rst_content ++ lines)) as (emissions & Hall & Hrun).
    exists (lines :: emissions). split; [now constructor |].
    cbn [for_each]. rewrite process_app, Hlines. cbn [result_bind].
    rewrite Hrun. cbn [concat]. now rewrite app_assoc.
Qed.

Lemma find_all_named names recursive element :
  Forall (fun e => name_in names e = true)
         (find_all names recursive element).
Proof.
  apply List.Forall_forall. intros e He.
  unfold find_all in He. now apply filter_In in He.
Qed.

(** The walker returns for every document. *)
Lemma html_to_rst_total parse html_content :
  exists rst, html_to_rst parse html_content = Ok rst.
Proof.
  unfold html_to_rst, rst_lines.
  destruct (for_each_process _ [] (find_all_named allowlist true
                                     (parse html_content)))
    as (emissions & _ & ->).
  eexists. reflexivity.
Qed.

(** C9.  The walk visits every descendant whose name is in the allowlist,
    in document order and whatever its depth, and the output is the
    lines of each of them one after the other.  So an element inside
    another one of the allowlist is written on its own although its text
    is also part of the text of the outer one: the inner list of a
    nested list, or a heading inside an output [div], comes out twice. *)
Theorem flat_scan soup :
  (exists emissions,
      Forall2 (fun e lines => process [] e = Ok lines)
        (List.filter (name_in allowlist) (descendants soup)) emissions
      /\ rst_lines soup = Ok (concat emissions))
  /\ rst_lines
       (BeautifulSoup
          [Tag "ul" ∅
             [Tag "li" ∅
                [NavigableString "A";
                 Tag "ul" ∅ [Tag "li" ∅ [NavigableString "B"]]]]])
     = Ok ["* AB"; ""; "* B"; ""]
  /\ rst_lines
       (BeautifulSoup
          [Tag "div" {["class" := AttrList ["output"]]}
             [Tag "h1" ∅ [NavigableString "Result"]]])
     = Ok [".. code-block:: text"; ""; "   Result"; "";
           ""; "Result"; "======"; ""].
Proof.
  split; [| split; reflexivity].
  destruct (for_each_process _ [] (find_all_named allowlist true soup))
    as (emissions & Hall & Hrun).
  exists emissions. split; assumption.
Qed.

(** C10.  A [code] element is in the allowlist, so the scan finds it
    wherever it is, and it adds no line; its text comes out only with
    the text of an element around it that adds lines. *)
Theorem code_element_emits_nothing attrs contents rst_content soup :
  let element := Tag "code" attrs contents in
  (In element (descendants soup) ->
   In element (find_all allowlist true soup))
  /\ process rst_content element = Ok rst_content
  /\ rst_lines (BeautifulSoup [Tag "code" ∅ [NavigableString "x"]])
     = Ok []
  /\ rst_lines
       (BeautifulSoup [Tag "p" ∅ [Tag "code" ∅ [NavigableString "x"]]])
     = Ok ["x"; ""].
Proof.
  intros element. split; [| split; [| split; reflexivity]].
  - intros H. unfold find_all. apply filter_In. now split.
  - unfold element. branch_on_name. reflexivity.
Qed.

Lemma code_element_emits_nothing_witness :
  In (Tag "code" ∅ [NavigableString "x"])
     (find_all allowlist true
        (BeautifulSoup [Tag "p" ∅ [Tag "code" ∅ [NavigableString "x"]]])).
Proof.
  apply (code_element_emits_nothing ∅ [NavigableString "x"] []
           (BeautifulSoup
              [Tag "p" ∅ [Tag "code" ∅ [NavigableString "x"]]])).
  cbn. right. left. reflexivity.
Defined.

(** ** The orchestrator *)

(** C6.  Two runs of the orchestrator that differ in the table of
    contents string only end the same way and leave the same file
    system; so the configuration file, the index file and the notebook
    content file are the same.  The function binds [toc_html] and never
    reads it. *)
Theorem toc_html_unused parse temp_html_path subprocess_run
    notebook_html toc_html toc_html' output_dir project_name (s : fs) :
  let run toc :=
    convert_colab_to_sphinx parse temp_html_path subprocess_run
      notebook_html toc output_dir project_name s in
  run toc_html = run toc_html'
  /\ Forall (fun file =>
               snd (run toc_html) !! os.path_join output_dir file
               = snd (run toc_html') !! os.path_join output_dir file)
            ["conf.py"; "index.rst"; "notebook_content.rst"].
Proof.
  intros run.
  assert (Hsame : run toc_html = run toc_html') by reflexivity.
  split; [exact Hsame |].
  rewrite Hsame. repeat constructor.
Qed.

(** The external route reports a failure it caught: the program is not
    there, or it ran and its exit status is not zero. *)
Lemma convert_with_pandoc_caught temp_html_path subprocess_run
    html_content output_rst_path (s s2 : fs) r kept :
  s !! temp_html_path <> Some Dir ->
  subprocess_run (pandoc_args temp_html_path output_rst_path)
    (<[temp_html_path := File html_content]> s) = (r, s2) ->
  r = Raise FileNotFoundError \/ r = Raise CalledProcessError
  \/ (exists code, r = Ok code /\ code <> 0%Z) ->
  s2 !! temp_html_path = Some (File kept) ->
  convert_with_pandoc temp_html_path subprocess_run html_content
    output_rst_path s
  = (Ok false, delete temp_html_path s2).
Proof.
  intros Htemp Hrun Hr Hkept.
  unfold convert_with_pandoc, io_bind.
  rewrite (write_file_not_dir _ _ _ Htemp).
  unfold try_finally, try_pandoc, run_checked, io_bind. rewrite Hrun.
  unfold os.unlink.
  destruct Hr as [-> | [-> | (code & -> & Hcode)]].
  - now rewrite Hkept.
  - now rewrite Hkept.
  - apply Z.eqb_neq in Hcode. rewrite Hcode.
    unfold io_raise. now rewrite Hkept.
Qed.

(** C7, as the code has it.  When the converter is not there or exits
    with a status other than zero, and the temporary file and the output
    path can be used, the orchestrator returns the output directory and
    the output file holds the walker's output inside the
    "Notebook Content" block, whatever the failed attempt left there. *)
Theorem fallback_on_caught_failure parse temp_html_path subprocess_run
    notebook_html toc_html output_dir project_name (s s1 s2 : fs) r kept :
  let rst_file_path := os.path_join output_dir "notebook_content.rst" in
  create_sphinx_project project_name output_dir s = (Ok tt, s1) ->
  s1 !! temp_html_path <> Some Dir ->
  subprocess_run (pandoc_args temp_html_path rst_file_path)
    (<[temp_html_path := File notebook_html]> s1) = (r, s2) ->
  r = Raise FileNotFoundError \/ r = Raise CalledProcessError
  \/ (exists code, r = Ok code /\ code <> 0%Z) ->
  s2 !! temp_html_path = Some (File kept) ->
  s2 !! rst_file_path <> Some Dir ->
  exists notebook_rst (s' : fs),
    html_to_rst parse notebook_html = Ok notebook_rst
    /\ convert_colab_to_sphinx parse temp_html_path subprocess_run
         notebook_html toc_html output_dir project_name s
       = (Ok output_dir, s')
    /\ s' !! rst_file_path = Some (File (full_rst_content notebook_rst))
    /\ forall q, q <> rst_file_path -> q <> temp_html_path ->
                 s' !! q = s2 !! q.
Proof.
  intros rst_file_path Hscaffold Htemp Hrun Hr Hkept Hout.
  destruct (html_to_rst_total parse notebook_html) as [notebook_rst Hrst].
  exists notebook_rst,
    (<[rst_file_path := File (full_rst_content notebook_rst)]>
       (delete temp_html_path s2)).
  split; [exact Hrst |]. split; [| split].
  - unfold convert_colab_to_sphinx, io_bind. rewrite Hscaffold.
    fold rst_file_path.
    rewrite (convert_with_pandoc_caught _ _ _ _ _ _ _ _ Htemp Hrun Hr Hkept).
    cbn [negb]. unfold io_lift. rewrite Hrst.
    rewrite write_file_not_dir; [reflexivity |].
    destruct (decide (temp_html_path = rst_file_path)) as [-> | Hne].
    + now rewrite lookup_delete_eq.
    + now rewrite lookup_delete_ne.
  - apply lookup_insert_eq.
  - intros q Hq Hq'. rewrite lookup_insert_ne by congruence.
    now rewrite lookup_delete_ne by congruence.
Qed.

Lemma fallback_on_caught_failure_witness :
  exists s' : fs,
    convert_colab_to_sphinx parse_hi "/tmp/tmpk3v9.html" run_failing
      "<p>hi</p>" "<ul></ul>" "out" "Demo" ∅
    = (Ok "out", s')
    /\ s' !! "out/notebook_content.rst"
       = Some (File (full_rst_content ("hi" +:+ Py.chr Py.LF))).
Proof.
  edestruct (fallback_on_caught_failure parse_hi "/tmp/tmpk3v9.html"
               run_failing "<p>hi</p>" "<ul></ul>" "out" "Demo" ∅)
    as (notebook_rst & s' & Hrst & Hrun & Hfile & _).
  - reflexivity.
  - vm_compute. discriminate.
  - reflexivity.
  - right. right. eexists. split; [reflexivity | discriminate].
  - vm_compute. reflexivity.
  - vm_compute. discriminate.
  - vm_compute in Hrst. injection Hrst as <-.
    exists s'. split; [exact Hrun | exact Hfile].
Defined.

(** The case the specification names first: the program is not there.
    The output file holds the walker's output in its block, and the
    temporary file is gone. *)
Example fallback_when_pandoc_absent :
  fst (convert_colab_to_sphinx parse_hi "/tmp/tmpk3v9.html" run_absent
         "<p>hi</p>" "<ul></ul>" "out" "Demo" ∅)
  = Ok "out"
  /\ snd (convert_colab_to_sphinx parse_hi "/tmp/tmpk3v9.html" run_absent
            "<p>hi</p>" "<ul></ul>" "out" "Demo" ∅)
     !! "out/notebook_content.rst"
     = Some (File (full_rst_content ("hi" +:+ Py.chr Py.LF)))
  /\ snd (convert_colab_to_sphinx parse_hi "/tmp/tmpk3v9.html" run_absent
            "<p>hi</p>" "<ul></ul>" "out" "Demo" ∅)
     !! "/tmp/tmpk3v9.html" = None.
Proof. split; [| split]; vm_compute; reflexivity. Qed.

(** C7, as the claim has it, fails: when the converter cannot be started
    for another reason (here the file may not be executed), the
    orchestrator raises; it returns no directory and writes no output
    file. *)
Lemma fallback_on_any_failure_counterexample :
  fst (run_denied (pandoc_args "/tmp/tmpk3v9.html"
                     "out/notebook_content.rst") ∅)
  = Raise PermissionError
  /\ fst (convert_colab_to_sphinx parse_hi "/tmp/tmpk3v9.html" run_denied
            "<p>hi</p>" "<ul></ul>" "out" "Demo" ∅)
     = Raise PermissionError
  /\ snd (convert_colab_to_sphinx parse_hi "/tmp/tmpk3v9.html" run_denied
            "<p>hi</p>" "<ul></ul>" "out" "Demo" ∅)
     !! "out/notebook_content.rst" = None.
Proof. split; [| split]; vm_compute; reflexivity. Qed.

(** ** Anchors *)

Lemma smap_app f a b : Py.smap f (a +:+ b) = Py.smap f a +:+ Py.smap f b.
Proof.
  induction a as [|c a IH]; [reflexivity |].
  change (String (f c) (Py.smap f (a +:+ b))
          = String (f c) (Py.smap f a +:+ Py.smap f b)).
  now rewrite IH.
Qed.

Lemma sfilter_app f a b :
  Py.sfilter f (a +:+ b) = Py.sfilter f a +:+ Py.sfilter f b.
Proof.
  induction a as [|c a IH]; [reflexivity |].
  change (Py.sfilter f (String c (a +:+ b))
          = Py.sfilter f (String c a) +:+ Py.sfilter f b).
  cbn [Py.sfilter]. rewrite IH. now destruct (f c).
Qed.

Lemma anchor_of_app a b : anchor_of (a +:+ b) = anchor_of a +:+ anchor_of b.
Proof.
  unfold anchor_of, Py.replace_char, sub_non_word, Py.lower.
  now rewrite !smap_app, sfilter_app, smap_app.
Qed.

Lemma anchor_of_spaces n : anchor_of (Py.mul " " n) = Py.mul "-" n.
Proof.
  induction n as [|n IH]; [reflexivity |].
  cbn [Py.mul]. now rewrite anchor_of_app, IH.
Qed.

Lemma isspace_not_space_kept c :
  Py.isspace c = true -> c <> " "%char -> anchor_of (Py.chr c) = Py.chr c.
Proof.
  destruct c as [[] [] [] [] [] [] [] []]; vm_compute;
    intros H1 H2; congruence.
Qed.

Lemma replace_single_spaces after s :
  single_spaces after s = true ->
  Py.replace_char " " "-" s = hyphenate_runs after s.
Proof.
  revert after. induction s as [|c s IH]; intros after; [reflexivity |].
  unfold Py.replace_char in *. cbn [single_spaces Py.smap hyphenate_runs].
  destruct (Py.isspace c) eqn:Hc.
  - intros [[Heq Hafter]%andb_prop Hrest]%andb_prop.
    apply negb_true_iff in Hafter. subst after. rewrite Heq.
    now rewrite (IH true).
  - intros Hrest. rewrite (IH false) by assumption.
    destruct (Ascii.eqb_spec c " ") as [-> | _]; [discriminate | reflexivity].
Qed.

(** C8, as the code has it.  For a heading with text the helper gives
    the level, the text and an anchor: the text in lower case, without
    the characters that are neither word characters nor white space nor
    hyphens, and with a hyphen for every space character.  A run of [n]
    spaces gives [n] hyphens, white space other than the space stays,
    and where the white space is single spaces only the anchor has one
    hyphen for each run of white space. *)
Theorem anchor_replaces_each_space (level : nat) attrs contents
    toc_structure :
  let heading := Tag ("h" +:+ Py.str_of_nat level) attrs contents in
  let text := Py.strip (get_text heading) in
  1 <= level <= 6 ->
  text <> "" ->
  toc_entry toc_structure heading
  = Ok (toc_structure ++ [(Z.of_nat level, text, anchor_of text)])
  /\ (forall a b n,
         anchor_of (a +:+ Py.mul " " n +:+ b)
         = anchor_of a +:+ Py.mul "-" n +:+ anchor_of b)
  /\ (forall c, Py.isspace c = true -> c <> " "%char ->
                anchor_of (Py.chr c) = Py.chr c)
  /\ (single_spaces false (sub_non_word (Py.lower text)) = true ->
      anchor_of text = anchor_by_runs text).
Proof.
  intros heading text Hlevel Htext.
  split; [| split; [| split]].
  - assert (Hcases : level = 1 \/ level = 2 \/ level = 3 \/ level = 4
                     \/ level = 5 \/ level = 6) by lia.
    subst heading.
    destruct Hcases as [-> | [-> | [-> | [-> | [-> | ->]]]]];
      unfold toc_entry; cbn [Py.getitem]; fold text;
      rewrite (eqb_nonempty _ Htext); reflexivity.
  - intros a b n. now rewrite !anchor_of_app, anchor_of_spaces.
  - apply isspace_not_space_kept.
  - intros H. unfold anchor_of, anchor_by_runs.
    now apply replace_single_spaces.
Qed.

Lemma anchor_replaces_each_space_witness :
  toc_entry [] (Tag "h2" ∅ [NavigableString " Data Loading: CSV "])
  = Ok [(2%Z, "Data Loading: CSV", "data-loading-csv")]
  /\ anchor_of "Data Loading: CSV" = anchor_by_runs "Data Loading: CSV".
Proof.
  destruct (anchor_replaces_each_space 2 ∅
              [NavigableString " Data Loading: CSV "] [])
    as (Hentry & _ & _ & Hruns); [lia | discriminate |].
  split; [exact Hentry | apply Hruns; reflexivity].
Defined.

(** C8, as the claim has it, fails: two spaces in a row give two hyphens,
    not one. *)
Lemma anchor_by_runs_counterexample :
  toc_entry [] (Tag "h2" ∅ [NavigableString "Data  Loading"])
  = Ok [(2%Z, "Data  Loading", "data--loading")]
  /\ anchor_by_runs "Data  Loading" = "data-loading".
Proof. split; reflexivity. Qed.

(** * Further properties of the walker *)

(** X1.  [html_to_rst] returns for every document.  The loop body can
    raise on a tag whose name begins with [h] and goes on with no digit,
    such as [hr] or a bare [h]; the scan hands it no such tag. *)
Theorem walk_never_raises parse html_content rst_content attrs contents :
  (exists rst, html_to_rst parse html_content = Ok rst)
  /\ process rst_content (Tag "hr" attrs contents) = Raise ValueError
  /\ process rst_content (Tag "h" attrs contents) = Raise IndexError.
Proof.
  split; [apply html_to_rst_total |].
  split; branch_on_name; reflexivity.
Qed.

Lemma for_each_process_app elements rst_content :
  for_each process elements rst_content
  = let* lines := for_each process elements [] in Ok (rst_content ++ lines).
Proof.
  revert rst_content.
  induction elements as [|e elements IH]; intros rst_content.
  - simpl. now rewrite app_nil_r.
  - cbn [for_each]. rewrite process_app.
    destruct (process [] e) as [lines | err]; cbn [result_bind];
      [| reflexivity].
    rewrite (IH (rst_content ++ lines)), (IH lines).
    destruct (for_each process elements []) as [rest | err];
      cbn [result_bind]; [| reflexivity].
    now rewrite app_assoc.
Qed.

Lemma descendants_root contents :
  descendants (BeautifulSoup contents)
  = flat_map (fun c => c :: descendants c) contents.
Proof. reflexivity. Qed.

(** X2.  The walk of two documents put one after the other is the walk
    of the first followed by the walk of the second. *)
Theorem rst_lines_app contents contents' :
  rst_lines (BeautifulSoup (contents ++ contents'))
  = let* lines := rst_lines (BeautifulSoup contents) in
    let* lines' := rst_lines (BeautifulSoup contents') in
    Ok (lines ++ lines').
Proof.
  unfold rst_lines, find_all. rewrite !descendants_root.
  rewrite flat_map_app, List.filter_app, for_each_app.
  destruct (for_each process _ []) as [lines | err]; cbn [result_bind];
    [| reflexivity].
  apply for_each_process_app.
Qed.

(** The lines one element adds: none, or a block ending in an empty
    line. *)
Lemma process_block_shape element lines :
  process [] element = Ok lines ->
  lines = [] \/ exists body, lines = body ++ [""].
Proof.
  intros E.
  destruct element as [s | name attrs contents]; [discriminate |].
  unfold process in E. destruct (Py.startswith "h" name).
  - destruct (Py.getitem name 1) as [c |]; cbn [result_bind] in E;
      [| discriminate].
    destruct (Py.int_of_digit c) as [level |]; cbn [result_bind] in E;
      [| discriminate].
    destruct (String.eqb _ ""); [injection E as <-; now left |].
    destruct (marker_of_level level) as [marker |]; cbn [result_bind] in E;
      [| discriminate].
    injection E as <-. right.
    now exists [""; Py.strip (get_text (Tag name attrs contents));
                Py.mul marker
                  (String.length
                     (Py.strip (get_text (Tag name attrs contents))))].
  - destruct (String.eqb name "p").
    { destruct (String.eqb _ ""); injection E as <-; [now left |].
      right. now exists [Py.strip (get_text (Tag name attrs contents))]. }
    destruct (String.eqb name "pre").
    { destruct (String.eqb _ ""); injection E as <-; [now left |].
      right. eexists. cbn [app]. rewrite !app_comm_cons. reflexivity. }
    destruct (existsb (String.eqb name) ["ul"; "ol"]).
    { injection E as <-. right. eexists. reflexivity. }
    destruct (String.eqb name "div" && output_in_class attrs).
    { destruct (String.eqb _ ""); injection E as <-; [now left |].
      right. eexists. cbn [app]. rewrite !app_comm_cons. reflexivity. }
    injection E as <-. now left.
Qed.

(** X3.  Whatever the element, the loop body keeps the lines it was
    given and adds a block after them: no line, or lines of which the
    last one is empty. *)
Theorem process_appends_block rst_content element rst_content' :
  process rst_content element = Ok rst_content' ->
  exists lines,
    rst_content' = rst_content ++ lines
    /\ process [] element = Ok lines
    /\ (lines = [] \/ exists body, lines = body ++ [""]).
Proof.
  rewrite process_app.
  destruct (process [] element) as [lines | err] eqn:E; cbn [result_bind];
    [| discriminate].
  intros H. injection H as <-. exists lines.
  split; [reflexivity |]. split; [reflexivity |].
  now apply process_block_shape in E.
Qed.

Lemma process_appends_block_witness :
  exists lines,
    ["kept"; "1. A"; ""] = ["kept"] ++ lines
    /\ process []
         (Tag "ol" ∅ [Tag "li" ∅ [NavigableString "A"]]) = Ok lines
    /\ (lines = [] \/ exists body, lines = body ++ [""]).
Proof.
  apply (process_appends_block ["kept"]
           (Tag "ol" ∅ [Tag "li" ∅ [NavigableString "A"]])).
  reflexivity.
Defined.

Lemma filter_none {A : Type} (f : A -> bool) (l : list A) :
  (forall x, In x l -> f x = false) -> List.filter f l = [].
Proof.
  induction l as [|x l IH]; intros H; [reflexivity |].
  cbn [List.filter]. rewrite (H x) by now left.
  apply IH. intros y Hy. apply H. now right.
Qed.

(** X4.  A document in which no element has a name of the allowlist is
    converted to the empty string, whatever text it holds. *)
Theorem text_outside_allowlist_dropped parse html_content :
  (forall e, In e (descendants (parse html_content)) ->
             name_in allowlist e = false) ->
  html_to_rst parse html_content = Ok "".
Proof.
  intros H. unfold html_to_rst, rst_lines, find_all.
  now rewrite (filter_none _ _ H).
Qed.

Lemma text_outside_allowlist_dropped_witness :
  html_to_rst
    (fun _ => BeautifulSoup
                [NavigableString "loose text ";
                 Tag "span" ∅ [NavigableString "in a span"];
                 Tag "table" ∅
                   [Tag "tr" ∅ [Tag "td" ∅ [NavigableString "cell"]]]])
    "loose text <span>in a span</span><table><tr><td>cell</td></tr></table>"
  = Ok "".
Proof.
  apply text_outside_allowlist_dropped.
  intros e H. cbn in H.
  repeat (destruct H as [<- | H]; [reflexivity |]). contradiction.
Defined.

(** X5.  An element that adds no line of its own can be taken away from
    around its content: a tag outside the allowlist, a [code] tag, or a
    [div] that is not of class [output]. *)
Theorem inert_wrapper name attrs contents :
  name_in allowlist (Tag name attrs contents) = false
  \/ name = "code"
  \/ (name = "div" /\ output_in_class attrs = false) ->
  rst_lines (BeautifulSoup [Tag name attrs contents])
  = rst_lines (BeautifulSoup contents).
Proof.
  intros H. unfold rst_lines, find_all. rewrite !descendants_root.
  cbn [flat_map]. rewrite app_nil_r. cbn [List.filter].
  change (descendants (Tag name attrs contents))
    with (flat_map (fun c => c :: descendants c) contents).
  destruct H as [-> | [-> | [-> Hclass]]]; [reflexivity | |].
  - change (name_in allowlist (Tag "code" attrs contents)) with true.
    cbn [for_each]. branch_on_name. reflexivity.
  - change (name_in allowlist (Tag "div" attrs contents)) with true.
    cbn [for_each]. branch_on_name. rewrite Hclass. reflexivity.
Qed.

Lemma inert_wrapper_witness :
  rst_lines
    (BeautifulSoup
       [Tag "div" {["class" := AttrList ["output_area"]]}
          [Tag "p" ∅ [NavigableString "42"]]])
  = rst_lines (BeautifulSoup [Tag "p" ∅ [NavigableString "42"]]).
Proof.
  apply inert_wrapper. right. right. split; reflexivity.
Defined.

Lemma fold_list_item_ul items i rst :
  fold_left (list_item "ul") (enumerate_from i items) rst
  = rst ++ map (fun t => "* " +:+ t)
             (List.filter (fun t => negb (String.eqb t ""))
                (map text_of items)).
Proof.
  revert i rst. induction items as [|li items IH]; intros i rst.
  - simpl. now rewrite app_nil_r.
  - cbn [enumerate_from fold_left map List.filter]. rewrite IH.
    unfold list_item at 1. fold (text_of li).
    destruct (String.eqb (text_of li) ""); cbn [negb]; [reflexivity |].
    cbn [String.eqb Ascii.eqb Bool.eqb map]. now rewrite <- app_assoc.
Qed.

(** X6.  An unordered list adds one line [* text] for each direct [li]
    child with text, in their order, and then one empty line; children
    without text, and [li] elements further down, add nothing to it. *)
Theorem unordered_list_emission attrs contents rst_content :
  let element := Tag "ul" attrs contents in
  process rst_content element
  = Ok (rst_content
          ++ map (fun t => "* " +:+ t)
               (List.filter (fun t => negb (String.eqb t ""))
                  (map text_of
                     (List.filter (name_in ["li"]) contents)))
          ++ [""]).
Proof.
  intros element. unfold element. branch_on_name.
  unfold enumerate. rewrite fold_list_item_ul.
  now rewrite <- app_assoc.
Qed.

(** X7.  A [div] whose [class] is a list of tokens is written as a text
    block exactly when one token is [output] and the trimmed text is not
    empty; the block holds the lines of the trimmed text.  With no such
    token the [div] adds nothing. *)
Theorem output_div_emission attrs tokens contents rst_content :
  let element := Tag "div" attrs contents in
  attrs !! "class" = Some (AttrList tokens) ->
  (In "output" tokens -> text_of element <> "" ->
   process rst_content element
   = Ok (rst_content
           ++ [".. code-block:: text"; ""]
           ++ map (fun line => "   " +:+ line)
                (Py.split Py.LF (text_of element))
           ++ [""]))
  /\ (~ In "output" tokens -> process rst_content element = Ok rst_content).
Proof.
  intros element Hclass.
  assert (Hin : output_in_class attrs = true <-> In "output" tokens).
  { unfold output_in_class. rewrite Hclass. rewrite existsb_exists.
    split.
    - intros (x & Hx & Heq). apply String.eqb_eq in Heq. now subst.
    - intros H. exists "output". split; [exact H | reflexivity]. }
  split.
  - intros Htoken Htext. apply Hin in Htoken.
    unfold element. branch_on_name. rewrite Htoken.
    fold element. fold (text_of element).
    now rewrite (eqb_nonempty _ Htext).
  - intros Htoken. unfold element. branch_on_name.
    destruct (output_in_class attrs); [| reflexivity].
    exfalso. apply Htoken, Hin. reflexivity.
Qed.

Lemma output_div_emission_witness :
  process []
    (Tag "div" {["class" := AttrList ["cell"; "output"]]}
       [NavigableString "
   a
b  "])
  = Ok [".. code-block:: text"; ""; "   a"; "   b"; ""]
  /\ process ["kept"]
       (Tag "div" {["class" := AttrList ["output_area"]]}
          [NavigableString "42"])
     = Ok ["kept"].
Proof.
  split.
  - apply (output_div_emission {["class" := AttrList ["cell"; "output"]]}
             ["cell"; "output"]);
      [reflexivity | right; left; reflexivity | discriminate].
  - apply (output_div_emission {["class" := AttrList ["output_area"]]}
             ["output_area"]); [reflexivity |].
    intros [H | []]. discriminate H.
Defined.

Lemma concat_block_shape (blocks : list (list string)) :
  Forall (fun lines => lines = [] \/ exists body, lines = body ++ [""])
         blocks ->
  concat blocks = [] \/ exists body, concat blocks = body ++ [""].
Proof.
  induction 1 as [| lines blocks Hl _ IH]; [now left |].
  cbn [concat]. destruct IH as [-> | [body ->]].
  - now rewrite app_nil_r.
  - right. exists (lines ++ body). now rewrite app_assoc.
Qed.

Lemma append_assoc (a b c : string) : (a +:+ b) +:+ c = a +:+ (b +:+ c).
Proof.
  induction a as [|x a IH]; [reflexivity |].
  change (String x ((a +:+ b) +:+ c) = String x (a +:+ (b +:+ c))).
  now rewrite IH.
Qed.

Lemma join_snoc_empty sep (body : list string) :
  body <> [] -> Py.join sep (body ++ [""]) = Py.join sep body +:+ sep.
Proof.
  unfold Py.join. induction body as [|x body IH]; [congruence |].
  intros _. destruct body as [|y body].
  - cbn. now rewrite append_empty_r.
  - change (x +:+ sep +:+ String.concat sep ((y :: body) ++ [""])
            = (x +:+ sep +:+ String.concat sep (y :: body)) +:+ sep).
    rewrite IH by discriminate.
    now rewrite !append_assoc.
Qed.

Lemma endswith_snoc c (a : string) : Py.endswith c (a +:+ Py.chr c) = true.
Proof.
  induction a as [|x a IH]; [cbn; apply Ascii.eqb_refl |].
  change (Py.endswith c (String x (a +:+ Py.chr c)) = true).
  cbn [Py.endswith]. destruct (a +:+ Py.chr c) eqn:E; [| exact IH].
  destruct a; discriminate.
Qed.

(** X8.  The text [html_to_rst] returns is empty or ends with a line
    feed: every block the walk writes ends with an empty line. *)
Theorem html_to_rst_ends_with_newline parse html_content rst :
  html_to_rst parse html_content = Ok rst ->
  rst = "" \/ Py.endswith Py.LF rst = true.
Proof.
  unfold html_to_rst, rst_lines.
  destruct (for_each_process _ [] (find_all_named allowlist true
                                     (parse html_content)))
    as (emissions & Hall & ->).
  cbn [result_bind app]. intros H. injection H as <-.
  assert (Hshape : Forall (fun lines =>
                             lines = [] \/ exists body, lines = body ++ [""])
                          emissions).
  { clear -Hall. induction Hall as [| e lines es ls He _ IH];
      constructor; [now apply process_block_shape in He | exact IH]. }
  destruct (concat_block_shape _ Hshape) as [-> | [body ->]];
    [now left |].
  destruct body as [|x body]; [now left |].
  right. rewrite join_snoc_empty by discriminate. apply endswith_snoc.
Qed.

Lemma html_to_rst_ends_with_newline_witness :
  Py.endswith Py.LF ("hi" +:+ Py.chr Py.LF) = true.
Proof.
  destruct (html_to_rst_ends_with_newline parse_hi "<p>hi</p>"
              ("hi" +:+ Py.chr Py.LF) eq_refl) as [H | H];
    [discriminate H | exact H].
Defined.

(** * Further properties of the structure extraction helper *)

Lemma toc_entry_heading heading toc_structure :
  name_in ["h1"; "h2"; "h3"; "h4"; "h5"; "h6"] heading = true ->
  exists level,
    (1 <= level <= 6)%Z
    /\ toc_entry toc_structure heading
       = Ok (toc_structure
               ++ if String.eqb (text_of heading) "" then []
                  else [(level, text_of heading,
                         anchor_of (text_of heading))]).
Proof.
  intros (name & attrs & contents & -> & Hin)%name_in_cases.
  cbn [In] in Hin. unfold text_of.
  repeat (destruct Hin as [<- | Hin]); try contradiction;
    eexists; (split; [| unfold toc_entry; cbn [Py.getitem String.get
      Py.int_of_digit result_bind]; cbv zeta;
      destruct (String.eqb _ ""); [now rewrite app_nil_r | reflexivity]]);
    vm_compute; split; discriminate.
Qed.

Lemma for_each_toc_entry headings toc_structure :
  Forall (fun h => name_in ["h1"; "h2"; "h3"; "h4"; "h5"; "h6"] h = true)
         headings ->
  exists entries,
    for_each toc_entry headings toc_structure
    = Ok (toc_structure ++ entries)
    /\ Forall (fun e => (1 <= fst (fst e) <= 6)%Z
                        /\ snd (fst e) <> ""
                        /\ snd e = anchor_of (snd (fst e))) entries
    /\ map (fun e => snd (fst e)) entries
       = List.filter (fun t => negb (String.eqb t ""))
           (map text_of headings).
Proof.
  intros H. revert toc_structure.
  induction H as [| h headings Hh _ IH]; intros toc_structure.
  - exists []. cbn. now rewrite app_nil_r.
  - destruct (toc_entry_heading h toc_structure Hh) as (level & Hl & He).
    cbn [for_each map List.filter]. rewrite He. cbn [result_bind].
    destruct (String.eqb (text_of h) "") eqn:Ht; cbn [negb].
    + rewrite app_nil_r. apply IH.
    + destruct (IH (toc_structure
                      ++ [(level, text_of h, anchor_of (text_of h))]))
        as (entries & Hrun & Hall & Htexts).
      exists ((level, text_of h, anchor_of (text_of h)) :: entries).
      split; [now rewrite Hrun, <- app_assoc |]. split.
      * constructor; [| assumption]. cbn [fst snd].
        apply String.eqb_neq in Ht. auto.
      * cbn [map fst snd]. now rewrite Htexts.
Qed.

(** X9.  [extract_toc_structure] returns for every document.  It gives
    one entry for each heading whose trimmed text is not empty, in
    document order; the level of an entry is between 1 and 6, its text
    is the trimmed text of the heading and its anchor is made from that
    text. *)
Theorem toc_structure_entries parse html_content :
  exists entries,
    extract_toc_structure parse html_content = Ok entries
    /\ Forall (fun e => (1 <= fst (fst e) <= 6)%Z
                        /\ snd (fst e) <> ""
                        /\ snd e = anchor_of (snd (fst e))) entries
    /\ map (fun e => snd (fst e)) entries
       = List.filter (fun t => negb (String.eqb t ""))
           (map text_of
              (find_all ["h1"; "h2"; "h3"; "h4"; "h5"; "h6"] true
                 (parse html_content))).
Proof.
  unfold extract_toc_structure.
  destruct (for_each_toc_entry _ [] (find_all_named _ true
                                       (parse html_content)))
    as (entries & Hrun & Hall & Htexts).
  exists entries. now rewrite Hrun.
Qed.

Lemma anchor_of_cons c s :
  anchor_of (String c s) = anchor_of (Py.chr c) +:+ anchor_of s.
Proof. change (String c s) with (Py.chr c +:+ s). apply anchor_of_app. Qed.

Lemma has_char_app c a b :
  has_char c (a +:+ b) = has_char c a || has_char c b.
Proof.
  induction a as [|x a IH]; [reflexivity |].
  change (has_char c (String x (a +:+ b))
          = has_char c (String x a) || has_char c b).
  cbn [has_char]. rewrite IH. now rewrite orb_assoc.
Qed.

Lemma anchor_of_char c :
  anchor_of (anchor_of (Py.chr c)) = anchor_of (Py.chr c)
  /\ has_char " " (anchor_of (Py.chr c)) = false
  /\ String.length (anchor_of (Py.chr c)) <= 1.
Proof.
  destruct c as [[] [] [] [] [] [] [] []]; vm_compute;
    (split; [reflexivity | split; [reflexivity | lia]]).
Qed.

(** X10.  An anchor holds no space, is not longer than the text it comes
    from, and is its own anchor: making the anchor of an anchor changes
    nothing. *)
Theorem anchor_of_stable text :
  anchor_of (anchor_of text) = anchor_of text
  /\ has_char " " (anchor_of text) = false
  /\ String.length (anchor_of text) <= String.length text.
Proof.
  induction text as [|c text (IH1 & IH2 & IH3)].
  - repeat split; reflexivity || (cbn; lia).
  - rewrite anchor_of_cons.
    destruct (anchor_of_char c) as (Hc1 & Hc2 & Hc3).
    split; [| split].
    + now rewrite anchor_of_app, Hc1, IH1.
    + now rewrite has_char_app, Hc2, IH2.
    + rewrite length_append. cbn [String.length]. lia.
Qed.

(** * Further properties of the scaffolder *)

(** ** What an action touches *)












(** ** When the scaffolder raises *)

Lemma makedirs_run path (s : fs) :
  os.makedirs path true s
  = if is_file (s !! path) then (Raise FileExistsError, s)
    else (Ok tt, <[path := Dir]> s).
Proof.
  unfold os.makedirs. destruct (s !! path) as [[|c]|] eqn:E; cbn [is_file];
    try reflexivity.
  now rewrite insert_id.
Qed.

Lemma write_file_run path content (s : fs) :
  os.write_file path content s
  = if is_dir (s !! path) then (Raise IsADirectoryError, s)
    else (Ok tt, <[path := File content]> s).
Proof.
  unfold os.write_file. now destruct (s !! path) as [[|c]|].
Qed.

(** The run of the scaffolder, step by step; what decides each step is
    what the path named before the run. *)
Lemma create_sphinx_project_run project_name project_path (s : fs) :
  let conf := os.path_join project_path "conf.py" in
  let index := os.path_join project_path "index.rst" in
  let static := os.path_join project_path "_static" in
  let templates := os.path_join project_path "_templates" in
  let s1 := <[project_path := Dir]> s in
  let s2 := <[conf := File (conf_content project_name)]> s1 in
  let s3 := <[index := File (index_content project_name)]> s2 in
  let s4 := <[static := Dir]> s3 in
  create_sphinx_project project_name project_path s
  = if is_file (s !! project_path) then (Raise FileExistsError, s)
    else if is_dir (s !! conf) then (Raise IsADirectoryError, s1)
    else if is_dir (s !! index) then (Raise IsADirectoryError, s2)
    else if is_file (s !! static) then (Raise FileExistsError, s3)
    else if is_file (s !! templates) then (Raise FileExistsError, s4)
    else (Ok tt, <[templates := Dir]> s4).
Proof.
  intros conf index static templates s1 s2 s3 s4.
  unfold create_sphinx_project, io_bind.
  rewrite makedirs_run.
  destruct (is_file (s !! project_path)); [reflexivity |].
  rewrite write_file_run. fold conf s1.
  replace (s1 !! conf) with (s !! conf)
    by (symmetry; apply lookup_insert_ne; subst conf; paths_differ).
  destruct (is_dir (s !! conf)); [reflexivity |].
  rewrite write_file_run. fold index s2.
  replace (s2 !! index) with (s !! index)
    by (symmetry; subst s2 s1;
        rewrite !lookup_insert_ne by (subst conf index; paths_differ);
        reflexivity).
  destruct (is_dir (s !! index)); [reflexivity |].
  rewrite makedirs_run. fold static s3.
  replace (s3 !! static) with (s !! static)
    by (symmetry; subst s3 s2 s1;
        rewrite !lookup_insert_ne
          by (subst conf index static; paths_differ);
        reflexivity).
  destruct (is_file (s !! static)); [reflexivity |].
  rewrite makedirs_run. fold templates s4.
  replace (s4 !! templates) with (s !! templates)
    by (symmetry; subst s4 s3 s2 s1;
        rewrite !lookup_insert_ne
          by (subst conf index static templates; paths_differ);
        reflexivity).
  now destruct (is_file (s !! templates)).
Qed.


(** X13.  The scaffolder does not undo what it did: when [_static] names
    a file, it raises FileExistsError after the project directory was
    made and [conf.py] and [index.rst] were written. *)
Theorem scaffold_not_rolled_back project_name project_path (s : fs) :
  is_file (s !! project_path) = false ->
  is_dir (s !! os.path_join project_path "conf.py") = false ->
  is_dir (s !! os.path_join project_path "index.rst") = false ->
  is_file (s !! os.path_join project_path "_static") = true ->
  let after := create_sphinx_project project_name project_path s in
  fst after = Raise FileExistsError
  /\ snd after !! project_path = Some Dir
  /\ snd after !! os.path_join project_path "conf.py"
     = Some (File (conf_content project_name))
  /\ snd after !! os.path_join project_path "index.rst"
     = Some (File (index_content project_name)).
Proof.
  intros Hp Hc Hi Hs after. subst after.
  rewrite create_sphinx_project_run. cbv zeta. rewrite Hp, Hc, Hi, Hs.
  cbn [fst snd]. split; [reflexivity |]. split; [| split].
  - rewrite !lookup_insert_ne by paths_differ. apply lookup_insert_eq.
  - rewrite lookup_insert_ne by paths_differ. apply lookup_insert_eq.
  - apply lookup_insert_eq.
Qed.

Lemma scaffold_not_rolled_back_witness :
  fst (create_sphinx_project "Demo" "docs"
         {["docs/_static" := File "not a directory"]})
  = Raise FileExistsError
  /\ snd (create_sphinx_project "Demo" "docs"
            {["docs/_static" := File "not a directory"]})
     !! "docs/conf.py" = Some (File (conf_content "Demo")).
Proof.
  destruct (scaffold_not_rolled_back "Demo" "docs"
              {["docs/_static" := File "not a directory"]})
    as (Hr & _ & Hc & _); try reflexivity.
  split; [exact Hr | exact Hc].
Defined.

(** * Further properties of the orchestrator *)

(** X14.  Whatever the converter does, [convert_with_pandoc] takes the
    temporary file away again and changes nothing else after the child
    ended, provided the child left that file in place.  It returns
    [True] for exit status 0 and [False] for another status or a missing
    program; any other exception goes on to the caller. *)
Theorem converter_attempt_outcome temp_html_path subprocess_run
    html_content output_rst_path (s s2 : fs) r kept :
  s !! temp_html_path <> Some Dir ->
  subprocess_run (pandoc_args temp_html_path output_rst_path)
    (<[temp_html_path := File html_content]> s) = (r, s2) ->
  s2 !! temp_html_path = Some (File kept) ->
  convert_with_pandoc temp_html_path subprocess_run html_content
    output_rst_path s
  = (pandoc_verdict r, delete temp_html_path s2).
Proof.
  intros Htemp Hrun Hkept.
  unfold convert_with_pandoc, io_bind.
  rewrite (write_file_not_dir _ _ _ Htemp).
  unfold try_finally, try_pandoc, run_checked, io_bind. rewrite Hrun.
  unfold os.unlink, pandoc_verdict.
  destruct r as [code | e].
  - destruct (code =? 0)%Z; unfold io_ret, io_raise; now rewrite Hkept.
  - destruct e; now rewrite Hkept.
Qed.

Lemma converter_attempt_outcome_witness :
  convert_with_pandoc "/tmp/tmpk3v9.html" run_denied "<p>hi</p>"
    "out/notebook_content.rst" {["out" := Dir]}
  = (Raise PermissionError,
     delete "/tmp/tmpk3v9.html"
       (<["/tmp/tmpk3v9.html" := File "<p>hi</p>"]> {["out" := Dir]})).
Proof.
  apply (converter_attempt_outcome "/tmp/tmpk3v9.html" run_denied
           "<p>hi</p>" "out/notebook_content.rst" {["out" := Dir]}
           _ (Raise PermissionError) "<p>hi</p>");
    [vm_compute; discriminate | reflexivity | vm_compute; reflexivity].
Defined.

(** X15.  When the temporary file is gone at the end of the attempt, the
    removal in the [finally] part raises FileNotFoundError, and that is
    what [convert_with_pandoc] raises, also when the converter ended
    with status 0. *)
Theorem cleanup_failure_masks_result temp_html_path subprocess_run
    html_content output_rst_path (s s2 : fs) r :
  s !! temp_html_path <> Some Dir ->
  subprocess_run (pandoc_args temp_html_path output_rst_path)
    (<[temp_html_path := File html_content]> s) = (r, s2) ->
  s2 !! temp_html_path = None ->
  convert_with_pandoc temp_html_path subprocess_run html_content
    output_rst_path s
  = (Raise FileNotFoundError, s2).
Proof.
  intros Htemp Hrun Hgone.
  unfold convert_with_pandoc, io_bind.
  rewrite (write_file_not_dir _ _ _ Htemp).
  unfold try_finally, try_pandoc, run_checked, io_bind. rewrite Hrun.
  unfold os.unlink.
  destruct r as [code | e].
  - destruct (code =? 0)%Z; unfold io_ret, io_raise; now rewrite Hgone.
  - destruct e; now rewrite Hgone.
Qed.

Lemma cleanup_failure_masks_result_witness :
  convert_with_pandoc "/tmp/tmpk3v9.html"
    (fun args s => (Ok 0%Z, delete "/tmp/tmpk3v9.html" s))
    "<p>hi</p>" "out/notebook_content.rst" ∅
  = (Raise FileNotFoundError, ∅).
Proof.
  apply (cleanup_failure_masks_result "/tmp/tmpk3v9.html"
           (fun args s => (Ok 0%Z, delete "/tmp/tmpk3v9.html" s))
           "<p>hi</p>" "out/notebook_content.rst" ∅ ∅ (Ok 0%Z));
    [vm_compute; discriminate | vm_compute; reflexivity | reflexivity].
Defined.

(** The run of the orchestrator after a scaffolding that went well. *)
Lemma convert_colab_to_sphinx_run parse temp_html_path subprocess_run
    notebook_html toc_html output_dir project_name (s s1 s2 : fs) r kept :
  let rst_file_path := os.path_join output_dir "notebook_content.rst" in
  let s3 := delete temp_html_path s2 in
  create_sphinx_project project_name output_dir s = (Ok tt, s1) ->
  s1 !! temp_html_path <> Some Dir ->
  subprocess_run (pandoc_args temp_html_path rst_file_path)
    (<[temp_html_path := File notebook_html]> s1) = (r, s2) ->
  s2 !! temp_html_path = Some (File kept) ->
  exists notebook_rst,
    html_to_rst parse notebook_html = Ok notebook_rst
    /\ convert_colab_to_sphinx parse temp_html_path subprocess_run
         notebook_html toc_html output_dir project_name s
       = match pandoc_verdict r with
         | Ok true => (Ok output_dir, s3)
         | Ok false =>
             if is_dir (s3 !! rst_file_path)
             then (Raise IsADirectoryError, s3)
             else (Ok output_dir,
                   <[rst_file_path := File (full_rst_content notebook_rst)]>
                     s3)
         | Raise e => (Raise e, s3)
         end.
Proof.
  intros rst_file_path s3 Hscaffold Htemp Hrun Hkept.
  destruct (html_to_rst_total parse notebook_html) as [notebook_rst Hrst].
  exists notebook_rst. split; [exact Hrst |].
  unfold convert_colab_to_sphinx, io_bind. rewrite Hscaffold.
  fold rst_file_path.
  rewrite (converter_attempt_outcome _ _ _ _ _ _ _ _ Htemp Hrun Hkept).
  fold s3. destruct (pandoc_verdict r) as [[|] | e]; cbn [negb];
    try reflexivity.
  unfold io_lift. rewrite Hrst, write_file_run.
  now destruct (is_dir (s3 !! rst_file_path)).
Qed.

(** X16.  When the converter ends with status 0 the orchestrator writes
    nothing itself: it returns the output directory, and the output file
    is whatever the converter left at that path, even nothing. *)
Theorem converter_success_is_final parse temp_html_path subprocess_run
    notebook_html toc_html output_dir project_name (s s1 s2 : fs) kept :
  let rst_file_path := os.path_join output_dir "notebook_content.rst" in
  create_sphinx_project project_name output_dir s = (Ok tt, s1) ->
  s1 !! temp_html_path <> Some Dir ->
  subprocess_run (pandoc_args temp_html_path rst_file_path)
    (<[temp_html_path := File notebook_html]> s1) = (Ok 0%Z, s2) ->
  s2 !! temp_html_path = Some (File kept) ->
  temp_html_path <> rst_file_path ->
  let after :=
    convert_colab_to_sphinx parse temp_html_path subprocess_run
      notebook_html toc_html output_dir project_name s in
  fst after = Ok output_dir
  /\ snd after = delete temp_html_path s2
  /\ snd after !! rst_file_path = s2 !! rst_file_path.
Proof.
  intros rst_file_path Hscaffold Htemp Hrun Hkept Hne after.
  destruct (convert_colab_to_sphinx_run parse _ _ _ toc_html _ _ _ _ _ _ _
              Hscaffold Htemp Hrun Hkept) as (notebook_rst & _ & Hconv).
  subst after. rewrite Hconv. cbn [pandoc_verdict Z.eqb fst snd].
  repeat split. now apply lookup_delete_ne.
Qed.

Lemma converter_success_is_final_witness :
  fst (convert_colab_to_sphinx parse_hi "/tmp/tmpk3v9.html"
         (fun args s => (Ok 0%Z, s))
         "<p>hi</p>" "<ul></ul>" "out" "Demo" ∅)
  = Ok "out"
  /\ snd (convert_colab_to_sphinx parse_hi "/tmp/tmpk3v9.html"
            (fun args s => (Ok 0%Z, s))
            "<p>hi</p>" "<ul></ul>" "out" "Demo" ∅)
     !! "out/notebook_content.rst" = None.
Proof.
  edestruct (converter_success_is_final parse_hi "/tmp/tmpk3v9.html"
               (fun args (s : fs) => (Ok 0%Z, s))
               "<p>hi</p>" "<ul></ul>" "out" "Demo" ∅)
    as (Hr & _ & Hf).
  - reflexivity.
  - vm_compute. discriminate.
  - reflexivity.
  - vm_compute. reflexivity.
  - discriminate.
  - split; [exact Hr |].
    etransitivity; [exact Hf |]. vm_compute. reflexivity.
Defined.

(** X17.  An exception of the converter that is neither
    CalledProcessError nor FileNotFoundError leaves the orchestrator as
    it is: the scaffold is there, the temporary file is gone, and the
    built-in converter has written nothing. *)
Theorem uncaught_failure_propagates parse temp_html_path subprocess_run
    notebook_html toc_html output_dir project_name (s s1 s2 : fs) e kept :
  let rst_file_path := os.path_join output_dir "notebook_content.rst" in
  create_sphinx_project project_name output_dir s = (Ok tt, s1) ->
  s1 !! temp_html_path <> Some Dir ->
  subprocess_run (pandoc_args temp_html_path rst_file_path)
    (<[temp_html_path := File notebook_html]> s1) = (Raise e, s2) ->
  s2 !! temp_html_path = Some (File kept) ->
  e <> CalledProcessError ->
  e <> FileNotFoundError ->
  convert_colab_to_sphinx parse temp_html_path subprocess_run
    notebook_html toc_html output_dir project_name s
  = (Raise e, delete temp_html_path s2).
Proof.
  intros rst_file_path Hscaffold Htemp Hrun Hkept Hcpe Hfnf.
  destruct (convert_colab_to_sphinx_run parse _ _ _ toc_html _ _ _ _ _ _ _
              Hscaffold Htemp Hrun Hkept) as (notebook_rst & _ & Hconv).
  rewrite Hconv. now destruct e.
Qed.

Lemma uncaught_failure_propagates_witness :
  exists s' : fs,
    convert_colab_to_sphinx parse_hi "/tmp/tmpk3v9.html" run_denied
      "<p>hi</p>" "<ul></ul>" "out" "Demo" ∅
    = (Raise PermissionError, s')
    /\ s' !! "/tmp/tmpk3v9.html" = None
    /\ s' !! "out/conf.py" = Some (File (conf_content "Demo")).
Proof.
  eexists. split.
  - eapply (uncaught_failure_propagates parse_hi "/tmp/tmpk3v9.html"
              run_denied "<p>hi</p>" "<ul></ul>" "out" "Demo" ∅).
    + reflexivity.
    + vm_compute. discriminate.
    + reflexivity.
    + vm_compute. reflexivity.
    + discriminate.
    + discriminate.
  - split; vm_compute; reflexivity.
Defined.



(** X19.  When the output directory names a file, the orchestrator raises
    FileExistsError at once: no program is started and the file system
    stays as it was. *)
Theorem output_dir_is_a_file parse temp_html_path subprocess_run
    notebook_html toc_html output_dir project_name (s : fs) content :
  s !! output_dir = Some (File content) ->
  convert_colab_to_sphinx parse temp_html_path subprocess_run
    notebook_html toc_html output_dir project_name s
  = (Raise FileExistsError, s).
Proof.
  intros H. unfold convert_colab_to_sphinx, io_bind.
  rewrite create_sphinx_project_run. cbv zeta. now rewrite H.
Qed.

Lemma output_dir_is_a_file_witness :
  convert_colab_to_sphinx parse_hi "/tmp/tmpk3v9.html" run_failing
    "<p>hi</p>" "<ul></ul>" "out" "Demo" {["out" := File "taken"]}
  = (Raise FileExistsError, {["out" := File "taken"]}).
Proof.
  apply (output_dir_is_a_file parse_hi "/tmp/tmpk3v9.html" run_failing
           "<p>hi</p>" "<ul></ul>" "out" "Demo" _ "taken").
  reflexivity.
Defined.

(** * Properties of the other entry points *)

(** X20.  [check_dependencies] gives [False] only for a missing package,
    and then it starts no program.  With both packages there it never
    gives [False]: pandoc found, failing or absent all give [True], and
    only another exception of starting it goes on to the caller. *)
Theorem check_dependencies_verdict subprocess_run importable (s : fs) :
  (importable "sphinx" && importable "bs4" = false ->
   check_dependencies subprocess_run importable s = (Ok false, s))
  /\ (importable "sphinx" && importable "bs4" = true ->
      snd (check_dependencies subprocess_run importable s)
      = snd (subprocess_run ["pandoc"; "--version"] s)
      /\ fst (check_dependencies subprocess_run importable s)
         = match fst (subprocess_run ["pandoc"; "--version"] s) with
           | Ok _ => Ok true
           | Raise CalledProcessError => Ok true
           | Raise FileNotFoundError => Ok true
           | Raise e => Raise e
           end).
Proof.
  unfold check_dependencies. split; intros ->; [reflexivity |].
  unfold run_checked, io_bind.
  destruct (subprocess_run ["pandoc"; "--version"] s) as [[code | e] s'].
  - now destruct (code =? 0)%Z.
  - now destruct e.
Qed.

Lemma check_dependencies_verdict_witness :
  check_dependencies run_absent (fun _ => true) ∅ = (Ok true, ∅)
  /\ check_dependencies run_failing (String.eqb "bs4") ∅ = (Ok false, ∅).
Proof.
  destruct (check_dependencies_verdict run_absent (fun _ => true) ∅)
    as [_ Hpresent].
  destruct (check_dependencies_verdict run_failing (String.eqb "bs4") ∅)
    as [Hmissing _].
  split; [| apply Hmissing; reflexivity].
  destruct (Hpresent eq_refl) as [Hs Hr].
  destruct (check_dependencies run_absent (fun _ => true) ∅) as [r s'].
  cbn [fst snd] in *. now rewrite Hs, Hr.
Defined.

(** X21.  [build_documentation] writes nothing itself.  It gives [True]
    exactly for exit status 0 and [False] for another status; a missing
    [sphinx-build] is not caught here: FileNotFoundError goes on to the
    caller. *)
Theorem build_documentation_verdict subprocess_run project_path (s : fs) :
  let child := subprocess_run (build_args project_path) s in
  let after := build_documentation subprocess_run project_path s in
  snd after = snd child
  /\ (fst after = Ok true <-> fst child = Ok 0%Z)
  /\ (forall code, fst child = Ok code -> code <> 0%Z ->
                   fst after = Ok false)
  /\ (fst child = Raise FileNotFoundError ->
      fst after = Raise FileNotFoundError).
Proof.
  intros child after. subst child after.
  unfold build_documentation, run_checked, io_bind.
  destruct (subprocess_run (build_args project_path) s)
    as [[code | e] s'].
  - destruct (Z.eqb_spec code 0) as [-> | Hne];
      unfold io_ret, io_raise; cbn [fst snd];
      repeat split; intros; try reflexivity; try discriminate;
      congruence.
  - destruct e; cbn [fst snd];
      repeat split; intros; try reflexivity; try discriminate;
      congruence.
Qed.

Lemma build_documentation_verdict_witness :
  fst (build_documentation run_absent "docs" ∅) = Raise FileNotFoundError
  /\ fst (build_documentation run_failing "docs" ∅) = Ok false.
Proof.
  split.
  - apply (build_documentation_verdict run_absent "docs" ∅). reflexivity.
  - apply (build_documentation_verdict run_failing "docs" ∅) with 64%Z;
      [reflexivity | discriminate].
Defined.

(** X22.  Without one of the packages [main] does nothing: it returns
    and the file system is as it was. *)
Theorem main_without_packages parse temp_html_path subprocess_run
    importable (s : fs) :
  importable "sphinx" && importable "bs4" = false ->
  main parse temp_html_path subprocess_run importable s = (Ok tt, s).
Proof.
  intros H. unfold main, io_bind, check_dependencies. now rewrite H.
Qed.

Lemma main_without_packages_witness :
  main parse_hi "/tmp/tmpk3v9.html" run_failing (String.eqb "sphinx")
    {["notes.txt" := File "mine"]}
  = (Ok tt, {["notes.txt" := File "mine"]}).
Proof. apply main_without_packages. reflexivity. Defined.

(** X23.  On a machine with the packages and with neither pandoc nor
    sphinx-build, [main] writes the project under [./sphinx_notebook]
    with the built-in converter and then ends with FileNotFoundError:
    the missing converter is caught, the missing builder is not. *)
Theorem main_without_programs parse temp_html_path importable
    (s s1 : fs) :
  let output_dir := "./sphinx_notebook" in
  let rst_file_path := os.path_join output_dir "notebook_content.rst" in
  importable "sphinx" && importable "bs4" = true ->
  create_sphinx_project "My Data Science Notebook" output_dir s
  = (Ok tt, s1) ->
  s1 !! temp_html_path = None ->
  s1 !! rst_file_path <> Some Dir ->
  exists notebook_rst (s' : fs),
    html_to_rst parse sample_notebook_html = Ok notebook_rst
    /\ main parse temp_html_path run_absent importable s
       = (Raise FileNotFoundError, s')
    /\ s' !! rst_file_path = Some (File (full_rst_content notebook_rst))
    /\ s' !! os.path_join output_dir "conf.py"
       = Some (File (conf_content "My Data Science Notebook")).
Proof.
  intros output_dir rst_file_path Himport Hscaffold Hfresh Hrst.
  assert (Htemp : s1 !! temp_html_path <> Some Dir) by congruence.
  destruct (convert_colab_to_sphinx_run parse temp_html_path run_absent
              sample_notebook_html sample_toc_html output_dir
              "My Data Science Notebook" s s1
              (<[temp_html_path := File sample_notebook_html]> s1)
              (Raise FileNotFoundError) sample_notebook_html
              Hscaffold Htemp eq_refl (lookup_insert_eq _ _ _))
    as (notebook_rst & Hwalk & Hconv).
  cbn [pandoc_verdict] in Hconv. fold rst_file_path in Hconv.
  assert (Hfree : is_dir (delete temp_html_path
                            (<[temp_html_path := File sample_notebook_html]>
                               s1) !! rst_file_path) = false).
  { destruct (decide (temp_html_path = rst_file_path)) as [-> | Hne].
    - now rewrite lookup_delete_eq.
    - rewrite lookup_delete_ne, lookup_insert_ne by congruence.
      destruct (s1 !! rst_file_path) as [[|c]|];
        [now contradict Hrst | reflexivity | reflexivity]. }
  rewrite Hfree in Hconv.
  exists notebook_rst. eexists. split; [exact Hwalk |]. split; [| split].
  - unfold main, io_bind, check_dependencies. rewrite Himport.
    change (run_checked run_absent ["pandoc"; "--version"] s)
      with (Raise FileNotFoundError : result unit, s).
    cbn [negb]. unfold output_dir in Hconv. rewrite Hconv.
    reflexivity.
  - apply lookup_insert_eq.
  - apply create_sphinx_project_leaves in Hscaffold
      as (_ & Hconf & _).
    rewrite lookup_insert_ne by (subst rst_file_path; paths_differ).
    rewrite lookup_delete_ne, lookup_insert_ne by congruence.
    exact Hconf.
Qed.

Lemma main_without_programs_witness :
  exists s' : fs,
    main parse_hi "/tmp/tmpk3v9.html" run_absent (fun _ => true) ∅
    = (Raise FileNotFoundError, s')
    /\ s' !! "./sphinx_notebook/notebook_content.rst"
       = Some (File (full_rst_content ("hi" +:+ Py.chr Py.LF))).
Proof.
  edestruct (main_without_programs parse_hi "/tmp/tmpk3v9.html"
               (fun _ => true) ∅)
    as (notebook_rst & s' & Hwalk & Hmain & Hfile & _).
  - reflexivity.
  - reflexivity.
  - vm_compute. reflexivity.
  - vm_compute. discriminate.
  - vm_compute in Hwalk. injection Hwalk as <-.
    exists s'. split; [exact Hmain | exact Hfile].
Defined.
